(** * mac-powermetrics-exporter: the sampling-and-parsing pipeline

    A shallow embedding of the three Prometheus collectors of the exporter
    ([internal/collector]: powermetrics, vm_stat, macmon) and of the Go
    library calls they are built from, followed by the properties of the
    pipeline stated against that embedding.

    - Go [string] is a byte string: Rocq's [string].
    - Go [float64] is IEEE 754 binary64: Rocq's primitive [float].
    - [map[string]float64] is [gmap string float].
    - A collector sends metrics on a channel and writes to the process log;
      both are threaded explicitly ([World]), and a panic is an outcome of
      its own ([Panicked]).
    - What a collector obtains from outside (the result of [cmd.Run], the
      page size, [strconv.ParseFloat]) is an argument of its model. *)

From Stdlib Require Import Floats Uint63 ZArith NArith Ascii Lia Bool.
From stdpp Require Import base option list gmap strings.

Local Open Scope Z_scope.

(* ===================================================================== *)
(** * Go's [strings] and [bufio] functions used by the collectors *)
(* ===================================================================== *)

Module strings.

(** [strings.Contains(s, substr)] *)
Fixpoint Contains (s substr : string) : bool :=
  String.prefix substr s ||
  match s with
  | EmptyString => false
  | String _ s' => Contains s' substr
  end.

(** White space as [unicode.IsSpace] sees it on a UTF-8 byte string: the
    six ASCII characters, U+0085, U+00A0, U+1680, U+2000..U+200A, U+2028,
    U+2029, U+202F, U+205F and U+3000, each by its encoding. *)
Definition bytes (l : list nat) : string :=
  String.string_of_list_ascii (map ascii_of_nat l).

Definition spaceRunes : list string :=
  map bytes
    [ [9]; [10]; [11]; [12]; [13]; [32];
      [194; 133]; [194; 160]; [225; 154; 128];
      [226; 128; 128]; [226; 128; 129]; [226; 128; 130]; [226; 128; 131];
      [226; 128; 132]; [226; 128; 133]; [226; 128; 134]; [226; 128; 135];
      [226; 128; 136]; [226; 128; 137]; [226; 128; 138];
      [226; 128; 168]; [226; 128; 169]; [226; 128; 175];
      [226; 129; 159]; [227; 128; 128] ]%nat.

(** Width in bytes of the white-space rune [s] starts with, [0] if it
    starts with none. *)
Definition spaceWidth (runes : list string) (s : string) : nat :=
  match List.find (fun r => String.prefix r s) runes with
  | Some r => String.length r
  | None => O
  end.

(** [strings.Fields(s)]: the maximal runs of non-space runes. [cur] is the
    field being read, last byte first; [skip] counts the bytes still to
    pass of a white-space rune. *)
Definition flush (cur : string) : list string :=
  match cur with
  | EmptyString => []
  | _ => [String.rev cur]
  end.

Fixpoint FieldsFrom (skip : nat) (cur : string) (s : string) : list string :=
  match s with
  | EmptyString => flush cur
  | String a s' =>
      match skip with
      | S k => FieldsFrom k cur s'
      | O =>
          match spaceWidth spaceRunes s with
          | O => FieldsFrom O (String a cur) s'
          | S k => flush cur ++ FieldsFrom k EmptyString s'
          end
      end
  end.

Definition Fields (s : string) : list string := FieldsFrom O EmptyString s.

(** Leading white space removed, for the rune table [runes]. *)
Fixpoint trimLeftFrom (runes : list string) (skip : nat) (s : string) : string :=
  match s with
  | EmptyString => EmptyString
  | String _ s' =>
      match skip with
      | S k => trimLeftFrom runes k s'
      | O =>
          match spaceWidth runes s with
          | O => s
          | S k => trimLeftFrom runes k s'
          end
      end
  end.

(** [strings.TrimSpace(s)]; the right end is trimmed on the reversed
    string, against the reversed encodings. *)
Definition TrimSpace (s : string) : string :=
  String.rev
    (trimLeftFrom (map String.rev spaceRunes) O
       (String.rev (trimLeftFrom spaceRunes O s))).

(** [strings.TrimRight(s, cutset)] for a cutset of one ASCII byte [c]. *)
Fixpoint dropLeading (c : ascii) (s : string) : string :=
  match s with
  | String a s' => if Ascii.eqb a c then dropLeading c s' else s
  | EmptyString => EmptyString
  end.

Definition TrimRight (s : string) (c : ascii) : string :=
  String.rev (dropLeading c (String.rev s)).

(** [strings.TrimSuffix(s, suffix)] for a suffix of one byte [c]. *)
Definition TrimSuffix (s : string) (c : ascii) : string :=
  match String.rev s with
  | String a r => if Ascii.eqb a c then String.rev r else s
  | EmptyString => s
  end.

(** [strings.SplitN(s, sep, 2)] for a separator of one byte [sep]: the
    text before the first [sep] and the text after it, or [s] alone. *)
Fixpoint cut (sep : ascii) (s : string) : option (string * string) :=
  match s with
  | EmptyString => None
  | String a s' =>
      if Ascii.eqb a sep then Some (EmptyString, s')
      else match cut sep s' with
           | Some (before, after) => Some (String a before, after)
           | None => None
           end
  end.

Definition SplitN2 (s : string) (sep : ascii) : list string :=
  match cut sep s with
  | Some (before, after) => [before; after]
  | None => [s]
  end.

End strings.

Module bufio.

(** [bufio.MaxScanTokenSize] *)
Definition MaxScanTokenSize : N := 65536%N.

(** The raw lines of [s]: the text between line feeds; a last line with
    no line feed counts when it is not empty. [cur] is the line being
    read, last byte first. *)
Fixpoint rawLines (cur : string) (s : string) : list string :=
  match s with
  | EmptyString =>
      match cur with
      | EmptyString => []
      | _ => [String.rev cur]
      end
  | String a s' =>
      if Ascii.eqb a "010" then String.rev cur :: rawLines EmptyString s'
      else rawLines (String a cur) s'
  end.

(** [dropCR] of [bufio.ScanLines] *)
Definition dropCR (line : string) : string := strings.TrimSuffix line "013".

Definition fits (line : string) : bool :=
  (N.of_nat (String.length line) <? MaxScanTokenSize)%N.

Fixpoint whileFits (lines : list string) : list string :=
  match lines with
  | [] => []
  | line :: rest => if fits line then line :: whileFits rest else []
  end.

(** The successive values of [scanner.Text()] in
    [for scanner.Scan() { ... }] over [bufio.NewScanner(strings.NewReader(s))]:
    the scanner splits with [ScanLines] and stops for good at the first
    line that does not fit its buffer. *)
Definition scanLines (s : string) : list string :=
  map dropCR (whileFits (rawLines EmptyString s)).

End bufio.

(* ===================================================================== *)
(** * Effects: the metric channel, the log, panics *)
(* ===================================================================== *)

Module prometheus.

(** [prometheus.Desc], as [prometheus.NewDesc(fqName, help, variableLabels, nil)]
    builds it. *)
Record Desc := NewDesc {
  fqName : string;
  help : string;
  variableLabels : list string
}.

Inductive ValueType := CounterValue | GaugeValue.

(** A constant metric: what [NewConstMetric] stores. *)
Record Metric := mkMetric {
  desc : Desc;
  valueType : ValueType;
  value : float;
  labelValues : list string
}.

Global Instance Desc_eq_dec : EqDecision Desc.
Proof. solve_decision. Defined.

End prometheus.

Export prometheus.

(** The part of the process a collector acts on: the metrics sent on [ch]
    so far, oldest first, and the lines written with [log.Printf]. *)
Record World := mkWorld {
  ch : list Metric;
  logged : list string
}.

Definition start : World := mkWorld [] [].

Inductive Outcome (A : Type) :=
| Returned (a : A) (w : World)
| Panicked (msg : string) (w : World).
Arguments Returned {A} a w.
Arguments Panicked {A} msg w.

Definition Go (A : Type) : Type := World -> Outcome A.

Global Instance Go_ret : MRet Go := fun A a w => Returned a w.

Global Instance Go_bind : MBind Go := fun A B f m w =>
  match m w with
  | Returned a w' => f a w'
  | Panicked msg w' => Panicked msg w'
  end.

(** [ch <- m] *)
Definition send (m : Metric) : Go unit := fun w =>
  Returned tt (mkWorld (ch w ++ [m]) (logged w)).

(** [log.Printf] with the message already formatted. *)
Definition Printf (msg : string) : Go unit := fun w =>
  Returned tt (mkWorld (ch w) (logged w ++ [msg])).

(** [prometheus.MustNewConstMetric]: panics where [NewConstMetric] returns
    an error, which it does when the label values do not match the
    descriptor's variable labels in number. (Its other error, a label value
    that is not valid UTF-8, is left out: captures are taken to be text.) *)
Definition MustNewConstMetric
    (d : Desc) (vt : ValueType) (v : float) (lvs : list string) : Go Metric :=
  fun w =>
    if decide (length lvs = length (variableLabels d))
    then Returned (mkMetric d vt v lvs) w
    else Panicked "inconsistent label cardinality" w.

(** [for _, x := range xs { body }] with loop-carried variables [s]. *)
Fixpoint rangeOver {A S : Type} (body : S -> A -> Go S) (s : S) (xs : list A) : Go S :=
  match xs with
  | [] => mret s
  | x :: xs' => s' ← body s x; rangeOver body s' xs'
  end.

(** What [exec.Command(...).Run()] left behind: the captured standard
    output and the error, if any. *)
Record CmdResult := mkCmdResult {
  Stdout : string;
  RunErr : option string
}.

(** The metrics of descriptor [d] among [ms]. *)
Definition samplesOf (d : Desc) (ms : list Metric) : list Metric :=
  filter (fun m => desc m = d) ms.

(* ===================================================================== *)
(** * powermetrics collector *)
(* ===================================================================== *)

Module PowermetricsCollector.

Definition cpuFrequency : Desc :=
  NewDesc "powermetrics_cpu_frequency_hertz"
          "Current CPU frequency in Hertz." ["core"].
Definition cpuTemperature : Desc :=
  NewDesc "powermetrics_cpu_temperature_celsius"
          "Current CPU temperature in Celsius." ["sensor_id"].
Definition cpuPower : Desc :=
  NewDesc "powermetrics_cpu_power_milliwatts"
          "Current CPU power in milliwatts." [].
Definition gpuPower : Desc :=
  NewDesc "powermetrics_gpu_power_milliwatts"
          "Current GPU power in milliwatts." [].
Definition cpuActiveResidency : Desc :=
  NewDesc "powermetrics_cpu_active_residency_percent"
          "Current CPU active residency percentage." ["core"].
Definition cpuIdleResidency : Desc :=
  NewDesc "powermetrics_cpu_idle_residency_percent"
          "Current CPU idle residency percentage." ["core"].
Definition gpuActiveResidency : Desc :=
  NewDesc "powermetrics_gpu_active_residency_percent"
          "Current GPU active residency percentage." [].
Definition gpuIdleResidency : Desc :=
  NewDesc "powermetrics_gpu_idle_residency_percent"
          "Current GPU idle residency percentage." [].

(** [Describe]: the descriptors sent on its channel, in order. *)
Definition Describe : list Desc :=
  [ cpuFrequency; cpuTemperature; cpuPower; gpuPower; cpuActiveResidency;
    cpuIdleResidency; gpuActiveResidency; gpuIdleResidency ].

Section Collect.

(** [strconv.ParseFloat(s, 64)]: [Some] of the value when [err == nil]. *)
Variable ParseFloat : string -> option float.

(** The loop over [parts] of the two power blocks, from the token at
    hand on: the first ["Power:"] with a token after it decides, and
    the loop breaks there. Returns whether the metric was sent. *)
Fixpoint powerLoop (d : Desc) (parts : list string) : Go bool :=
  match parts with
  | [] => mret false
  | part :: rest =>
      match String.eqb part "Power:", rest with
      | true, powerStr :: _ =>
          match ParseFloat powerStr with
          | Some power =>
              m ← MustNewConstMetric d GaugeValue power [];
              send m;;
              mret true
          | None => mret false
          end
      | _, _ => powerLoop d rest
      end
  end.

(** [if !sent && Contains(line, marker) && Contains(line, "mW") {...}];
    returns the flag's new value. *)
Definition powerBlock (d : Desc) (marker : string) (sent : bool) (line : string)
  : Go bool :=
  if negb sent && strings.Contains line marker && strings.Contains line "mW"
  then now ← powerLoop d (strings.Fields line); mret (sent || now)
  else mret sent.

(** The loop of the frequency block: no break, so the last ["CPU"] and
    the last ["frequency:"] whose next token parses decide. *)
Fixpoint frequencyLoop (parts : list string) (cpuCore : string) (freqValue : float)
  : string * float :=
  match parts with
  | [] => (cpuCore, freqValue)
  | part :: rest =>
      let cpuCore' :=
        match String.eqb part "CPU", rest with
        | true, next :: _ => next
        | _, _ => cpuCore
        end in
      let freqValue' :=
        match String.eqb part "frequency:", rest with
        | true, freqStr :: _ =>
            match ParseFloat freqStr with
            | Some freq => (freq * 1000000)%float
            | None => freqValue
            end
        | _, _ => freqValue
        end in
      frequencyLoop rest cpuCore' freqValue'
  end.

Definition frequencyBlock (line : string) : Go unit :=
  if strings.Contains line "frequency:" && strings.Contains line "MHz"
     && strings.Contains line "CPU"
  then
    let '(cpuCore, freqValue) := frequencyLoop (strings.Fields line) "" 0%float in
    if negb (String.eqb cpuCore "") && (0 <? freqValue)%float
    then m ← MustNewConstMetric cpuFrequency GaugeValue freqValue
               ["cpu" +:+ cpuCore];
         send m
    else mret tt
  else mret tt.

(** The loop of the two per-core residency blocks. *)
Fixpoint residencyLoop (parts : list string) (cpuCore : string) (residencyValue : float)
  : string * float :=
  match parts with
  | [] => (cpuCore, residencyValue)
  | part :: rest =>
      let cpuCore' :=
        match String.eqb part "CPU", rest with
        | true, next :: _ => next
        | _, _ => cpuCore
        end in
      let residencyValue' :=
        match String.eqb part "residency:", rest with
        | true, next :: _ =>
            match ParseFloat (strings.TrimSuffix next "%") with
            | Some residency => residency
            | None => residencyValue
            end
        | _, _ => residencyValue
        end in
      residencyLoop rest cpuCore' residencyValue'
  end.

Definition cpuResidencyBlock (d : Desc) (marker : string) (line : string) : Go unit :=
  if strings.Contains line marker && strings.Contains line "%"
     && strings.Contains line "CPU"
  then
    let '(cpuCore, residencyValue) :=
      residencyLoop (strings.Fields line) "" 0%float in
    if negb (String.eqb cpuCore "") && (0 <=? residencyValue)%float
    then m ← MustNewConstMetric d GaugeValue residencyValue ["cpu" +:+ cpuCore];
         send m
    else mret tt
  else mret tt.

(** The loop of the two GPU residency blocks: breaks at the first
    ["residency:"] with a token after it. *)
Fixpoint gpuResidencyLoop (d : Desc) (parts : list string) : Go unit :=
  match parts with
  | [] => mret tt
  | part :: rest =>
      match String.eqb part "residency:", rest with
      | true, next :: _ =>
          match ParseFloat (strings.TrimSuffix next "%") with
          | Some residency =>
              m ← MustNewConstMetric d GaugeValue residency [];
              send m
          | None => mret tt
          end
      | _, _ => gpuResidencyLoop d rest
      end
  end.

Definition gpuResidencyBlock (d : Desc) (marker : string) (line : string) : Go unit :=
  if strings.Contains line marker && strings.Contains line "%"
  then gpuResidencyLoop d (strings.Fields line)
  else mret tt.

(** The flags declared before the scan. *)
Record Flags := mkFlags { cpuPowerSent : bool; gpuPowerSent : bool }.

(** One turn of [for scanner.Scan() { line := scanner.Text() ... }]. *)
Definition scanLine (fl : Flags) (line : string) : Go Flags :=
  c ← powerBlock cpuPower "CPU Power:" (cpuPowerSent fl) line;
  g ← powerBlock gpuPower "GPU Power:" (gpuPowerSent fl) line;
  frequencyBlock line;;
  cpuResidencyBlock cpuActiveResidency "active residency:" line;;
  cpuResidencyBlock cpuIdleResidency "idle residency:" line;;
  gpuResidencyBlock gpuActiveResidency "GPU HW active residency:" line;;
  gpuResidencyBlock gpuIdleResidency "GPU idle residency:" line;;
  mret (mkFlags c g).

(** [Collect], given what running
    [powermetrics --samplers cpu_power,gpu_power -i 1 -n 1] gave. *)
Definition Collect (run : CmdResult) : Go unit :=
  match RunErr run with
  | Some err => Printf ("Failed to run powermetrics: " +:+ err)
  | None =>
      rangeOver scanLine (mkFlags false false) (bufio.scanLines (Stdout run));;
      mret tt
  end.

End Collect.

End PowermetricsCollector.

(* ===================================================================== *)
(** * vm_stat collector *)
(* ===================================================================== *)

(** Go's conversion [float64(n)] of a 64-bit integer [n]. *)
Definition float64 (n : Z) : float :=
  if n =? -9223372036854775808 then (-9223372036854775808)%float
  else if n <? 0 then (- PrimFloat.of_uint63 (Uint63.of_Z (- n)))%float
  else PrimFloat.of_uint63 (Uint63.of_Z n).

Module VmStatCollector.

Definition freePages : Desc :=
  NewDesc "vmstat_pages_free_count" "Number of free pages." [].
Definition activePages : Desc :=
  NewDesc "vmstat_pages_active_count" "Number of active pages." [].
Definition inactivePages : Desc :=
  NewDesc "vmstat_pages_inactive_count" "Number of inactive pages." [].
Definition speculativePages : Desc :=
  NewDesc "vmstat_pages_speculative_count" "Number of speculative pages." [].
Definition throttledPages : Desc :=
  NewDesc "vmstat_pages_throttled_count" "Number of throttled pages." [].
Definition wiredPages : Desc :=
  NewDesc "vmstat_pages_wired_count" "Number of wired down pages." [].
Definition purgeablePages : Desc :=
  NewDesc "vmstat_pages_purgeable_count" "Number of purgeable pages." [].
Definition copyOnWrite : Desc :=
  NewDesc "vmstat_pages_cow_faults_total" "Number of copy-on-write faults." [].
Definition zeroFilled : Desc :=
  NewDesc "vmstat_pages_zero_filled_total" "Number of pages zero filled." [].
Definition reactivated : Desc :=
  NewDesc "vmstat_pages_reactivated_total" "Number of pages reactivated." [].
Definition purged : Desc :=
  NewDesc "vmstat_pages_purged_total" "Number of pages purged." [].
Definition fileBacked : Desc :=
  NewDesc "vmstat_pages_file_backed_count" "Number of pages file-backed." [].
Definition anonymous : Desc :=
  NewDesc "vmstat_pages_anonymous_count" "Number of pages anonymous." [].
Definition uncompressed : Desc :=
  NewDesc "vmstat_pages_uncompressed_total" "Number of pages uncompressed." [].
Definition compressor : Desc :=
  NewDesc "vmstat_pages_compressor_count" "Number of pages used by compressor." [].
Definition decompressed : Desc :=
  NewDesc "vmstat_pages_decompressed_total" "Number of pages decompressed." [].
Definition compressed : Desc :=
  NewDesc "vmstat_pages_compressed_total" "Number of pages compressed." [].
Definition pageIns : Desc :=
  NewDesc "vmstat_page_ins_total" "Number of pageins." [].
Definition pageOuts : Desc :=
  NewDesc "vmstat_page_outs_total" "Number of pageouts." [].
Definition faults : Desc :=
  NewDesc "vmstat_faults_total" "Number of page faults." [].
Definition swapIns : Desc :=
  NewDesc "vmstat_swap_ins_total" "Number of swapins." [].
Definition swapOuts : Desc :=
  NewDesc "vmstat_swap_outs_total" "Number of swapouts." [].
Definition pageSize : Desc :=
  NewDesc "vmstat_page_size_bytes" "Size of pages in bytes." [].

(** [Describe]: the descriptors sent on its channel, in order. *)
Definition Describe : list Desc :=
  [ freePages; activePages; inactivePages; speculativePages; throttledPages;
    wiredPages; purgeablePages; copyOnWrite; zeroFilled; reactivated; purged;
    fileBacked; anonymous; uncompressed; compressor; decompressed; compressed;
    pageIns; pageOuts; faults; swapIns; swapOuts; pageSize ].

Section Collect.

Variable ParseFloat : string -> option float.

(** The body of the scan loop: [valueMap] after one more line. *)
Definition parseLine (valueMap : gmap string float) (line : string)
  : gmap string float :=
  match strings.SplitN2 line ":" with
  | [k; v] =>
      let key := strings.TrimSpace k in
      let valueStr := strings.TrimRight (strings.TrimSpace v) "." in
      match ParseFloat valueStr with
      | Some value => <[key := value]> valueMap
      | None => valueMap   (* header lines *)
      end
  | _ => valueMap          (* len(parts) != 2 *)
  end.

Definition parse (out : string) : gmap string float :=
  fold_left parseLine (bufio.scanLines out) ∅.

(** [if val, ok := valueMap[key]; ok { ch <- MustNewConstMetric(d, vt, val) }] *)
Definition sendIfPresent (valueMap : gmap string float)
    (key : string) (d : Desc) (vt : ValueType) : Go unit :=
  match valueMap !! key with
  | Some val => m ← MustNewConstMetric d vt val []; send m
  | None => mret tt
  end.

(** The lookups that follow the scan, in the order of the source. *)
Definition sendAll (valueMap : gmap string float) : Go unit :=
  sendIfPresent valueMap "Pages free" freePages GaugeValue;;
  sendIfPresent valueMap "Pages active" activePages GaugeValue;;
  sendIfPresent valueMap "Pages inactive" inactivePages GaugeValue;;
  sendIfPresent valueMap "Pages speculative" speculativePages GaugeValue;;
  sendIfPresent valueMap "Pages throttled" throttledPages GaugeValue;;
  sendIfPresent valueMap "Pages wired down" wiredPages GaugeValue;;
  sendIfPresent valueMap "Pages purgeable" purgeablePages GaugeValue;;
  sendIfPresent valueMap "Copy-on-writes" copyOnWrite CounterValue;;
  sendIfPresent valueMap "Pages zero filled" zeroFilled CounterValue;;
  sendIfPresent valueMap "Pages reactivated" reactivated CounterValue;;
  sendIfPresent valueMap "Pages purged" purged CounterValue;;
  sendIfPresent valueMap "File-backed pages" fileBacked GaugeValue;;
  sendIfPresent valueMap "Anonymous pages" anonymous GaugeValue;;
  sendIfPresent valueMap "Pages stored in compressor" compressor GaugeValue;;
  sendIfPresent valueMap "Pages decompressed" decompressed CounterValue;;
  sendIfPresent valueMap "Pages compressed" compressed CounterValue;;
  sendIfPresent valueMap "Pageins" pageIns CounterValue;;
  sendIfPresent valueMap "Pageouts" pageOuts CounterValue;;
  sendIfPresent valueMap "Swapins" swapIns CounterValue;;
  sendIfPresent valueMap "Swapouts" swapOuts CounterValue;;
  sendIfPresent valueMap "Page faults" faults CounterValue.

(** [Collect], given [syscall.Getpagesize()] and what running [vm_stat]
    gave. *)
Definition Collect (Getpagesize : Z) (run : CmdResult) : Go unit :=
  m ← MustNewConstMetric pageSize GaugeValue (float64 Getpagesize) [];
  send m;;
  match RunErr run with
  | Some err => Printf ("Failed to run vm_stat: " +:+ err)
  | None => sendAll (parse (Stdout run))
  end.

End Collect.

(** The same lookups as a table: observation key, descriptor, value kind. *)
Definition rules : list (string * Desc * ValueType) :=
  [ ("Pages free", freePages, GaugeValue);
    ("Pages active", activePages, GaugeValue);
    ("Pages inactive", inactivePages, GaugeValue);
    ("Pages speculative", speculativePages, GaugeValue);
    ("Pages throttled", throttledPages, GaugeValue);
    ("Pages wired down", wiredPages, GaugeValue);
    ("Pages purgeable", purgeablePages, GaugeValue);
    ("Copy-on-writes", copyOnWrite, CounterValue);
    ("Pages zero filled", zeroFilled, CounterValue);
    ("Pages reactivated", reactivated, CounterValue);
    ("Pages purged", purged, CounterValue);
    ("File-backed pages", fileBacked, GaugeValue);
    ("Anonymous pages", anonymous, GaugeValue);
    ("Pages stored in compressor", compressor, GaugeValue);
    ("Pages decompressed", decompressed, CounterValue);
    ("Pages compressed", compressed, CounterValue);
    ("Pageins", pageIns, CounterValue);
    ("Pageouts", pageOuts, CounterValue);
    ("Swapins", swapIns, CounterValue);
    ("Swapouts", swapOuts, CounterValue);
    ("Page faults", faults, CounterValue) ].

End VmStatCollector.

(* ===================================================================== *)
(** * macmon collector *)
(* ===================================================================== *)

Module json.

(** A JSON text after the syntax pass of [encoding/json]. A number keeps
    its literal; an object keeps its members in order, duplicates
    included. *)
#[local] Unset Elimination Schemes.
Inductive Value :=
| Null
| Bool (b : bool)
| Number (literal : string)
| Str (s : string)
| Array (elems : list Value)
| Object (members : list (string * Value)).

End json.

Module MacMonCollector.

Definition allPower : Desc :=
  NewDesc "macmon_all_power_watts" "Total power consumption in Watts." [].
Definition anePower : Desc :=
  NewDesc "macmon_ane_power_watts" "Current ANE power in Watts." [].
Definition cpuPower : Desc :=
  NewDesc "macmon_cpu_power_watts" "Current CPU power in Watts." [].
Definition gpuPower : Desc :=
  NewDesc "macmon_gpu_power_watts" "Current GPU power in Watts." [].
Definition gpuRAMPower : Desc :=
  NewDesc "macmon_gpu_ram_power_watts" "Current GPU RAM power in Watts." [].
Definition ramPower : Desc :=
  NewDesc "macmon_ram_power_watts" "Current RAM power in Watts." [].
Definition sysPower : Desc :=
  NewDesc "macmon_sys_power_watts" "Current system power in Watts." [].
Definition cpuTempAvg : Desc :=
  NewDesc "macmon_cpu_temperature_celsius" "Average CPU temperature in Celsius." [].
Definition gpuTempAvg : Desc :=
  NewDesc "macmon_gpu_temperature_celsius" "Average GPU temperature in Celsius." [].
Definition ecpuFrequency : Desc :=
  NewDesc "macmon_ecpu_frequency_megahertz" "Efficiency CPU frequency in Megahertz." [].
Definition ecpuUsagePercent : Desc :=
  NewDesc "macmon_ecpu_usage_percent" "Efficiency CPU usage percentage." [].
Definition pcpuFrequency : Desc :=
  NewDesc "macmon_pcpu_frequency_megahertz" "Performance CPU frequency in Megahertz." [].
Definition pcpuUsagePercent : Desc :=
  NewDesc "macmon_pcpu_usage_percent" "Performance CPU usage percentage." [].
Definition gpuFrequency : Desc :=
  NewDesc "macmon_gpu_frequency_megahertz" "GPU frequency in Megahertz." [].
Definition gpuUsagePercent : Desc :=
  NewDesc "macmon_gpu_usage_percent" "GPU usage percentage." [].
Definition ramTotalBytes : Desc :=
  NewDesc "macmon_memory_ram_total_bytes" "Total RAM size in bytes." [].
Definition ramUsedBytes : Desc :=
  NewDesc "macmon_memory_ram_used_bytes" "Used RAM size in bytes." [].
Definition swapTotalBytes : Desc :=
  NewDesc "macmon_memory_swap_total_bytes" "Total swap size in bytes." [].
Definition swapUsedBytes : Desc :=
  NewDesc "macmon_memory_swap_used_bytes" "Used swap size in bytes." [].

(** [Describe]: the descriptors sent on its channel, in order. *)
Definition Describe : list Desc :=
  [ allPower; anePower; cpuPower; gpuPower; gpuRAMPower; ramPower; sysPower;
    cpuTempAvg; gpuTempAvg; ecpuFrequency; ecpuUsagePercent; pcpuFrequency;
    pcpuUsagePercent; gpuFrequency; gpuUsagePercent; ramTotalBytes;
    ramUsedBytes; swapTotalBytes; swapUsedBytes ].

(** [MacMonOutput] and its two anonymous structs. *)
Record TempT := mkTemp {
  CPUTempAvg : float;
  GPUTempAvg : float
}.

Record MemoryT := mkMemory {
  RAMTotal : Z;
  RAMUsage : Z;
  SwapTotal : Z;
  SwapUsage : Z
}.

Record MacMonOutput := mkMacMonOutput {
  AllPower : float;
  ANEPower : float;
  CPUPower : float;
  GPUPower : float;
  GPURAMPower : float;
  RAMPower : float;
  SysPower : float;
  Temp : TempT;
  ECPUsage : list float;
  PCPUsage : list float;
  GPUUsage : list float;
  Memory : MemoryT
}.

(** [var data MacMonOutput] *)
Definition zeroValue : MacMonOutput :=
  mkMacMonOutput 0 0 0 0 0 0 0 (mkTemp 0 0) [] [] [] (mkMemory 0 0 0 0).

(** The [json:"..."] tags, in declaration order. *)
Definition tags : list string :=
  [ "all_power"; "ane_power"; "cpu_power"; "gpu_power"; "gpu_ram_power";
    "ram_power"; "sys_power"; "temp"; "ecpu_usage"; "pcpu_usage";
    "gpu_usage"; "memory" ].
Definition tempTags : list string := [ "cpu_temp_avg"; "gpu_temp_avg" ].
Definition memoryTags : list string :=
  [ "ram_total"; "ram_usage"; "swap_total"; "swap_usage" ].

Section Collect.

(** The pieces of [json.Unmarshal] that belong to [encoding/json]:
    - [parseJSON]: the syntax pass, [None] for a syntax error;
    - [EqualFold]: the case-insensitive comparison of a key and a tag;
    - [decodeFloat64 v cur], [decodeInt64 v cur], [decodeFloat64s v cur]:
      the value [v] stored into a field of type [float64], [int64],
      [[]float64] that holds [cur]; [None] for a type error;
    - [errorText line]: the text of the error returned for [line]. *)
Variable parseJSON : string -> option json.Value.
Variable EqualFold : string -> string -> bool.
Variable decodeFloat64 : json.Value -> float -> option float.
Variable decodeInt64 : json.Value -> Z -> option Z.
Variable decodeFloat64s : json.Value -> list float -> option (list float).
Variable errorText : string -> string.

(** The field a key selects, by position among [names]: the one whose
    tag is the key, failing that the first whose tag matches it up to
    case. *)
Definition fieldIndex (names : list string) (key : string) : option nat :=
  match list_find (fun n => n = key) names with
  | Some (i, _) => Some i
  | None => fst <$> list_find (fun n => EqualFold n key = true) names
  end.

(** One member of the ["temp"] object stored into [t]. *)
Definition setTempField (t : TempT) (member : string * json.Value)
  : option TempT :=
  let '(key, v) := member in
  match fieldIndex tempTags key with
  | Some 0%nat => x ← decodeFloat64 v (CPUTempAvg t); Some (mkTemp x (GPUTempAvg t))
  | Some 1%nat => x ← decodeFloat64 v (GPUTempAvg t); Some (mkTemp (CPUTempAvg t) x)
  | _ => Some t   (* unknown key: the value is skipped *)
  end.

Definition setMemoryField (m : MemoryT) (member : string * json.Value)
  : option MemoryT :=
  let '(key, v) := member in
  match fieldIndex memoryTags key with
  | Some 0%nat => x ← decodeInt64 v (RAMTotal m);
                  Some (mkMemory x (RAMUsage m) (SwapTotal m) (SwapUsage m))
  | Some 1%nat => x ← decodeInt64 v (RAMUsage m);
                  Some (mkMemory (RAMTotal m) x (SwapTotal m) (SwapUsage m))
  | Some 2%nat => x ← decodeInt64 v (SwapTotal m);
                  Some (mkMemory (RAMTotal m) (RAMUsage m) x (SwapUsage m))
  | Some 3%nat => x ← decodeInt64 v (SwapUsage m);
                  Some (mkMemory (RAMTotal m) (RAMUsage m) (SwapTotal m) x)
  | _ => Some m
  end.

(** A JSON value stored into a struct: [null] leaves it as it is, an
    object stores its members one after the other, anything else is a
    type error. A type error is reported when decoding ends and
    [Collect] then drops the record, so the model stops at the first. *)
Definition decodeStruct {T : Type} (setField : T -> string * json.Value -> option T)
    (v : json.Value) (cur : T) : option T :=
  match v with
  | json.Null => Some cur
  | json.Object members => foldl (fun acc mem => t ← acc; setField t mem) (Some cur) members
  | _ => None
  end.

Definition setField (d : MacMonOutput) (member : string * json.Value)
  : option MacMonOutput :=
  let '(key, v) := member in
  let '(mkMacMonOutput f0 f1 f2 f3 f4 f5 f6 t e p g m) := d in
  match fieldIndex tags key with
  | Some 0%nat => x ← decodeFloat64 v f0; Some (mkMacMonOutput x f1 f2 f3 f4 f5 f6 t e p g m)
  | Some 1%nat => x ← decodeFloat64 v f1; Some (mkMacMonOutput f0 x f2 f3 f4 f5 f6 t e p g m)
  | Some 2%nat => x ← decodeFloat64 v f2; Some (mkMacMonOutput f0 f1 x f3 f4 f5 f6 t e p g m)
  | Some 3%nat => x ← decodeFloat64 v f3; Some (mkMacMonOutput f0 f1 f2 x f4 f5 f6 t e p g m)
  | Some 4%nat => x ← decodeFloat64 v f4; Some (mkMacMonOutput f0 f1 f2 f3 x f5 f6 t e p g m)
  | Some 5%nat => x ← decodeFloat64 v f5; Some (mkMacMonOutput f0 f1 f2 f3 f4 x f6 t e p g m)
  | Some 6%nat => x ← decodeFloat64 v f6; Some (mkMacMonOutput f0 f1 f2 f3 f4 f5 x t e p g m)
  | Some 7%nat => x ← decodeStruct setTempField v t;
                  Some (mkMacMonOutput f0 f1 f2 f3 f4 f5 f6 x e p g m)
  | Some 8%nat => x ← decodeFloat64s v e; Some (mkMacMonOutput f0 f1 f2 f3 f4 f5 f6 t x p g m)
  | Some 9%nat => x ← decodeFloat64s v p; Some (mkMacMonOutput f0 f1 f2 f3 f4 f5 f6 t e x g m)
  | Some 10%nat => x ← decodeFloat64s v g; Some (mkMacMonOutput f0 f1 f2 f3 f4 f5 f6 t e p x m)
  | Some 11%nat => x ← decodeStruct setMemoryField v m;
                   Some (mkMacMonOutput f0 f1 f2 f3 f4 f5 f6 t e p g x)
  | _ => Some d
  end.

(** [json.Unmarshal([]byte(line), &data)] on a fresh [data]: [Some] of
    [data] afterwards when [err == nil]. *)
Definition Unmarshal (line : string) : option MacMonOutput :=
  v ← parseJSON line; decodeStruct setField v zeroValue.

Definition gauge (d : Desc) (v : float) : Go unit :=
  m ← MustNewConstMetric d GaugeValue v []; send m.

(** [if len(usage) >= 2 { ... usage[0] ... usage[1] ... }] *)
Definition sendPair (freq usage : Desc) (pair : list float) : Go unit :=
  if decide (2 <= length pair)%nat then
    match pair with
    | x0 :: x1 :: _ => gauge freq x0;; gauge usage x1
    | _ => fun w => Panicked "index out of range" w
    end
  else mret tt.

(** The sends made for one decoded record. *)
Definition sendRecord (data : MacMonOutput) : Go unit :=
  gauge allPower (AllPower data);;
  gauge anePower (ANEPower data);;
  gauge cpuPower (CPUPower data);;
  gauge gpuPower (GPUPower data);;
  gauge gpuRAMPower (GPURAMPower data);;
  gauge ramPower (RAMPower data);;
  gauge sysPower (SysPower data);;
  gauge cpuTempAvg (CPUTempAvg (Temp data));;
  gauge gpuTempAvg (GPUTempAvg (Temp data));;
  sendPair ecpuFrequency ecpuUsagePercent (ECPUsage data);;
  sendPair pcpuFrequency pcpuUsagePercent (PCPUsage data);;
  sendPair gpuFrequency gpuUsagePercent (GPUUsage data);;
  gauge ramTotalBytes (float64 (RAMTotal (Memory data)));;
  gauge ramUsedBytes (float64 (RAMUsage (Memory data)));;
  gauge swapTotalBytes (float64 (SwapTotal (Memory data)));;
  gauge swapUsedBytes (float64 (SwapUsage (Memory data))).

(** One turn of the scan loop. *)
Definition scanLine (_ : unit) (line : string) : Go unit :=
  match Unmarshal line with
  | None => Printf ("Failed to parse JSON: " +:+ errorText line)   (* continue *)
  | Some data => sendRecord data
  end.

(** [Collect], given what running [macmon pipe -s 1] gave. *)
Definition Collect (run : CmdResult) : Go unit :=
  match RunErr run with
  | Some err => Printf ("Failed to run macmon: " +:+ err)
  | None => rangeOver scanLine tt (bufio.scanLines (Stdout run))
  end.

End Collect.

End MacMonCollector.

(* ===================================================================== *)
(** * One scrape *)
(* ===================================================================== *)

Module server.

(** What a scrape makes the two collectors registered by [Start] do: each
    runs its [Collect]; they are taken one after the other, in the order
    of registration. *)
Definition scrape (ParseFloat : string -> option float) (Getpagesize : Z)
    (powermetrics vm_stat : CmdResult) : Go unit :=
  PowermetricsCollector.Collect ParseFloat powermetrics;;
  VmStatCollector.Collect ParseFloat Getpagesize vm_stat.

End server.

(* ===================================================================== *)
(** * Running the model: a decimal [ParseFloat] *)
(* ===================================================================== *)

Module strconv.

(** Reads the digits [s] starts with: the number read so far, how many
    digits were read, and what follows them. *)
Fixpoint digits (acc : Z) (n : nat) (s : string) : Z * nat * string :=
  match s with
  | String a s' =>
      match Ascii.is_nat a with
      | Some d => digits (10 * acc + Z.of_nat d) (S n) s'
      | None => (acc, n, s)
      end
  | EmptyString => (acc, n, s)
  end.

(** [mantissa / 10^scale], both exact in binary64 under the bounds that
    [ParseDecimal] checks, so the quotient is the nearest binary64. *)
Definition quotient (mantissa : Z) (scale : nat) : float :=
  (PrimFloat.of_uint63 (Uint63.of_Z mantissa)
   / PrimFloat.of_uint63 (Uint63.of_Z (10 ^ Z.of_nat scale)))%float.

Definition unsigned (s : string) : option float :=
  let '(ip, ni, rest) := digits 0 O s in
  let '(m, nf, rest') :=
    match rest with
    | String "." frac => digits ip O frac
    | _ => (ip, O, rest)
    end in
  match rest' with
  | EmptyString =>
      if (0 <? Z.of_nat (ni + nf)) && (m <? 10 ^ 15) && (Z.of_nat nf <=? 15)
      then Some (quotient m nf)
      else None
  | _ => None
  end.

(** [strconv.ParseFloat(s, 64)] on plain decimal literals: an optional
    sign, digits, an optional point and more digits, with fewer than
    sixteen significant digits. On these it returns Go's value, and on a
    string that is no float literal at all it fails as Go does. The other
    literals of Go (exponents, hexadecimal, underscores, infinities, NaN,
    longer mantissas) are outside it: it is used to run the model at
    inputs that have none. *)
Definition ParseDecimal (s : string) : option float :=
  match s with
  | String "-" s' => PrimFloat.opp <$> unsigned s'
  | String "+" s' => unsigned s'
  | _ => unsigned s
  end.

End strconv.

(* ===================================================================== *)
(** * Notions the properties are stated with *)
(* ===================================================================== *)

(** [w] after sending [ms] and logging [ls]. *)
Definition after (ms : list Metric) (ls : list string) (w : World) : World :=
  mkWorld (ch w ++ ms) (logged w ++ ls).

(** [c] returns [a], having sent [ms] and logged [ls], whatever came
    before; in particular it does not panic. *)
Definition Does {A : Type} (c : Go A) (a : A) (ms : list Metric) (ls : list string)
  : Prop :=
  forall w, c w = Returned a (after ms ls w).

(** The tokens that come right after a token equal to [marker], in order. *)
Fixpoint followers (marker : string) (parts : list string) : list string :=
  match parts with
  | part :: rest =>
      match String.eqb part marker, rest with
      | true, next :: _ => next :: followers marker rest
      | _, _ => followers marker rest
      end
  | [] => []
  end.

Section PowermetricsViews.

Variable ParseFloat : string -> option float.

Import PowermetricsCollector.

(** A line carries a power marker and the unit. *)
Definition powerMatch (marker line : string) : bool :=
  strings.Contains line marker && strings.Contains line "mW".

(** The reading a power line gives: the token after its first ["Power:"]
    token, parsed. *)
Definition powerReading (line : string) : option float :=
  head (followers "Power:" (strings.Fields line)) ≫= ParseFloat.

(** The readings of the lines that match [marker] and give one, in the
    order of the capture. *)
Definition readings (marker : string) (lines : list string) : list float :=
  omap (fun l => if powerMatch marker l then powerReading l else None) lines.

(** A line carries the three per-core frequency markers. *)
Definition frequencyMatch (line : string) : bool :=
  strings.Contains line "frequency:" && strings.Contains line "MHz"
  && strings.Contains line "CPU".

(** The token after the last ["CPU"] token that has one. *)
Definition coreToken (line : string) : option string :=
  last (followers "CPU" (strings.Fields line)).

(** The value of the last token after a ["frequency:"] token that parses. *)
Definition frequencyMHz (line : string) : option float :=
  last (omap ParseFloat (followers "frequency:" (strings.Fields line))).

(** The frequency sample of core token [c] at [f] MHz. *)
Definition frequencySample (c : string) (f : float) : Metric :=
  mkMetric cpuFrequency GaugeValue (f * 1000000)%float ["cpu" +:+ c].

Definition frequencySamples (line : string) : list Metric :=
  if frequencyMatch line then
    match coreToken line, frequencyMHz line with
    | Some c, Some f =>
        if (0 <? f * 1000000)%float then [frequencySample c f] else []
    | _, _ => []
    end
  else [].

(** The value of the last token after a ["residency:"] token that parses
    once its ["%"] is cut. *)
Definition residencyPercent (line : string) : option float :=
  last (omap (fun t => ParseFloat (strings.TrimSuffix t "%"))
             (followers "residency:" (strings.Fields line))).

(** What the per-core residency blocks send: with no value parsed, the
    variable still holds its initial [0]. *)
Definition cpuResidencySamples (d : Desc) (marker line : string) : list Metric :=
  if strings.Contains line marker && strings.Contains line "%"
     && strings.Contains line "CPU"
  then
    match coreToken line with
    | Some c =>
        let r := default 0%float (residencyPercent line) in
        if (0 <=? r)%float then [mkMetric d GaugeValue r ["cpu" +:+ c]] else []
    | None => []
    end
  else [].

Definition gpuResidencySamples (d : Desc) (marker line : string) : list Metric :=
  if strings.Contains line marker && strings.Contains line "%"
  then
    match head (followers "residency:" (strings.Fields line))
            ≫= (fun t => ParseFloat (strings.TrimSuffix t "%")) with
    | Some r => [mkMetric d GaugeValue r []]
    | None => []
    end
  else [].

(** What a power block sends on [line] when its flag is [sent]. *)
Definition powerSamples (d : Desc) (marker : string) (sent : bool) (line : string)
  : list Metric :=
  if negb sent && powerMatch marker line
  then match powerReading line with
       | Some v => [mkMetric d GaugeValue v []]
       | None => []
       end
  else [].

(** The flag of a power block after [line]. *)
Definition powerFlag (marker : string) (sent : bool) (line : string) : bool :=
  sent || (powerMatch marker line && bool_decide (is_Some (powerReading line))).

Definition lineFlags (fl : Flags) (line : string) : Flags :=
  mkFlags (powerFlag "CPU Power:" (cpuPowerSent fl) line)
          (powerFlag "GPU Power:" (gpuPowerSent fl) line).

Definition lineSamples (fl : Flags) (line : string) : list Metric :=
  powerSamples cpuPower "CPU Power:" (cpuPowerSent fl) line
  ++ powerSamples gpuPower "GPU Power:" (gpuPowerSent fl) line
  ++ frequencySamples line
  ++ cpuResidencySamples cpuActiveResidency "active residency:" line
  ++ cpuResidencySamples cpuIdleResidency "idle residency:" line
  ++ gpuResidencySamples gpuActiveResidency "GPU HW active residency:" line
  ++ gpuResidencySamples gpuIdleResidency "GPU idle residency:" line.

(** The samples of a whole scan that starts with flags [fl]. *)
Fixpoint scanSamples (fl : Flags) (lines : list string) : list Metric :=
  match lines with
  | [] => []
  | line :: rest => lineSamples fl line ++ scanSamples (lineFlags fl line) rest
  end.

(** The lines [Collect] gets to scan. *)
Definition scanned (run : CmdResult) : list string :=
  match RunErr run with
  | Some _ => []
  | None => bufio.scanLines (Stdout run)
  end.

(** The specification's sentence on power readings, as worded: of the
    lines that carry the CPU power marker and the unit, the first one gives
    the sample its value. *)
Definition first_match_gives_value : Prop :=
  forall (out : string) (pre post : list string) (line : string) (w : World) (m : Metric),
    bufio.scanLines out = pre ++ line :: post ->
    Forall (fun l => powerMatch "CPU Power:" l = false) pre ->
    powerMatch "CPU Power:" line = true ->
    Exists (fun l => powerMatch "CPU Power:" l = true) post ->
    Collect ParseFloat (mkCmdResult out None) start = Returned tt w ->
    m ∈ samplesOf cpuPower (ch w) ->
    powerReading line = Some (value m).

End PowermetricsViews.

(** How many times the byte [c] occurs in [s]. *)
Fixpoint countByte (c : ascii) (s : string) : nat :=
  match s with
  | EmptyString => O
  | String a s' => (if Ascii.eqb a c then 1 else 0) + countByte c s'
  end.

(** None of the first [k] bytes of [s] is [c]. *)
Fixpoint headFree (c : ascii) (k : nat) (s : string) : Prop :=
  match k, s with
  | S k', String a s' => a ≠ c /\ headFree c k' s'
  | _, _ => True
  end.

Section VmStatViews.

Variable ParseFloat : string -> option float.

Import VmStatCollector.

(** The entry a line contributes to the snapshot, if any: the line is cut
    at its first [":"]; the key is the left side trimmed; the value is the
    right side trimmed, stripped of its trailing periods, parsed. *)
Definition entry (line : string) : option (string * float) :=
  match strings.cut ":" line with
  | Some (k, v) =>
      x ← ParseFloat (strings.TrimRight (strings.TrimSpace v) ".");
      Some (strings.TrimSpace k, x)
  | None => None
  end.

(** The same with one trailing period stripped and no more, which is how
    the specification words it. *)
Definition entry_one_period (line : string) : option (string * float) :=
  match strings.cut ":" line with
  | Some (k, v) =>
      x ← ParseFloat (strings.TrimSuffix (strings.TrimSpace v) ".");
      Some (strings.TrimSpace k, x)
  | None => None
  end.

(** The values that the lines give to [key], in order. *)
Definition valuesOf (key : string) (lines : list string) : list float :=
  omap (fun l => e ← entry l; if decide (e.1 = key) then Some e.2 else None) lines.

(** The specification's sentence on the line parser, as worded: a line
    adds the entry read with one trailing period stripped, and nothing
    else. *)
Definition adds_entry_one_period : Prop :=
  forall (valueMap : gmap string float) (line : string),
    parseLine ParseFloat valueMap line =
    match entry_one_period line with
    | Some (k, x) => <[k := x]> valueMap
    | None => valueMap
    end.

(** What one lookup sends. *)
Definition ruleSamples (valueMap : gmap string float)
    (rule : string * Desc * ValueType) : list Metric :=
  let '(key, d, vt) := rule in
  match valueMap !! key with
  | Some val => [mkMetric d vt val []]
  | None => []
  end.

(** The page-size sample. *)
Definition pageSizeSample (Getpagesize : Z) : Metric :=
  mkMetric pageSize GaugeValue (float64 Getpagesize) [].

End VmStatViews.

Section MacMonViews.

Variable parseJSON : string -> option json.Value.
Variable EqualFold : string -> string -> bool.
Variable decodeFloat64 : json.Value -> float -> option float.
Variable decodeInt64 : json.Value -> Z -> option Z.
Variable decodeFloat64s : json.Value -> list float -> option (list float).
Variable errorText : string -> string.

Import MacMonCollector.

Definition gaugeSample (d : Desc) (v : float) : Metric :=
  mkMetric d GaugeValue v [].

(** The two samples of a [frequency, usage] array, sent when the array
    has both positions. *)
Definition pairSamples (freq usage : Desc) (pair : list float) : list Metric :=
  match pair with
  | x0 :: x1 :: _ => [gaugeSample freq x0; gaugeSample usage x1]
  | _ => []
  end.

(** The samples of one decoded record, in the order they are sent. *)
Definition recordSamples (data : MacMonOutput) : list Metric :=
  [ gaugeSample allPower (AllPower data);
    gaugeSample anePower (ANEPower data);
    gaugeSample cpuPower (CPUPower data);
    gaugeSample gpuPower (GPUPower data);
    gaugeSample gpuRAMPower (GPURAMPower data);
    gaugeSample ramPower (RAMPower data);
    gaugeSample sysPower (SysPower data);
    gaugeSample cpuTempAvg (CPUTempAvg (Temp data));
    gaugeSample gpuTempAvg (GPUTempAvg (Temp data)) ]
  ++ pairSamples ecpuFrequency ecpuUsagePercent (ECPUsage data)
  ++ pairSamples pcpuFrequency pcpuUsagePercent (PCPUsage data)
  ++ pairSamples gpuFrequency gpuUsagePercent (GPUUsage data)
  ++ [ gaugeSample ramTotalBytes (float64 (RAMTotal (Memory data)));
       gaugeSample ramUsedBytes (float64 (RAMUsage (Memory data)));
       gaugeSample swapTotalBytes (float64 (SwapTotal (Memory data)));
       gaugeSample swapUsedBytes (float64 (SwapUsage (Memory data))) ].

Local Abbreviation Unmarshal :=
  (Unmarshal parseJSON EqualFold decodeFloat64 decodeInt64 decodeFloat64s).

(** What a line of the capture makes the collector send and log. *)
Definition recordsOf (line : string) : list Metric :=
  match Unmarshal line with
  | Some data => recordSamples data
  | None => []
  end.

Definition complaintsOf (line : string) : list string :=
  match Unmarshal line with
  | Some _ => []
  | None => ["Failed to parse JSON: " +:+ errorText line]
  end.

(** The scalar fields of a record: power, temperature, memory. *)
Inductive Scalar :=
| SAllPower | SANEPower | SCPUPower | SGPUPower | SGPURAMPower | SRAMPower
| SSysPower | SCPUTempAvg | SGPUTempAvg
| SRAMTotal | SRAMUsage | SSwapTotal | SSwapUsage.

(** Where a scalar sits: its position among the fields of the record and,
    for a field of ["temp"] or ["memory"], its position in there. *)
Definition scalarPath (s : Scalar) : nat * option nat :=
  match s with
  | SAllPower => (0, None) | SANEPower => (1, None) | SCPUPower => (2, None)
  | SGPUPower => (3, None) | SGPURAMPower => (4, None) | SRAMPower => (5, None)
  | SSysPower => (6, None)
  | SCPUTempAvg => (7, Some 0) | SGPUTempAvg => (7, Some 1)
  | SRAMTotal => (11, Some 0) | SRAMUsage => (11, Some 1)
  | SSwapTotal => (11, Some 2) | SSwapUsage => (11, Some 3)
  end%nat.

Definition scalarDesc (s : Scalar) : Desc :=
  match s with
  | SAllPower => allPower | SANEPower => anePower | SCPUPower => cpuPower
  | SGPUPower => gpuPower | SGPURAMPower => gpuRAMPower | SRAMPower => ramPower
  | SSysPower => sysPower
  | SCPUTempAvg => cpuTempAvg | SGPUTempAvg => gpuTempAvg
  | SRAMTotal => ramTotalBytes | SRAMUsage => ramUsedBytes
  | SSwapTotal => swapTotalBytes | SSwapUsage => swapUsedBytes
  end.

(** The value sent for a scalar. *)
Definition scalarValue (s : Scalar) (data : MacMonOutput) : float :=
  match s with
  | SAllPower => AllPower data | SANEPower => ANEPower data
  | SCPUPower => CPUPower data | SGPUPower => GPUPower data
  | SGPURAMPower => GPURAMPower data | SRAMPower => RAMPower data
  | SSysPower => SysPower data
  | SCPUTempAvg => CPUTempAvg (Temp data) | SGPUTempAvg => GPUTempAvg (Temp data)
  | SRAMTotal => float64 (RAMTotal (Memory data))
  | SRAMUsage => float64 (RAMUsage (Memory data))
  | SSwapTotal => float64 (SwapTotal (Memory data))
  | SSwapUsage => float64 (SwapUsage (Memory data))
  end.

(** The members of a JSON object; none for any other value. *)
Definition membersOf (v : json.Value) : list (string * json.Value) :=
  match v with
  | json.Object members => members
  | _ => []
  end.

(** Some member of [v] has a key that selects field [i] among [names]. *)
Definition names (tagsOf : list string) (i : nat) (v : json.Value) : Prop :=
  exists key x, (key, x) ∈ membersOf v /\ fieldIndex EqualFold tagsOf key = Some i.

(** The JSON value [v] of a line names the scalar [s]: a member selects
    its field, and for a field of ["temp"] or ["memory"] a member of that
    member's object selects it in turn. *)
Definition mentions (v : json.Value) (s : Scalar) : Prop :=
  match scalarPath s with
  | (i, None) => names tags i v
  | (i, Some j) =>
      exists key x,
        (key, x) ∈ membersOf v /\ fieldIndex EqualFold tags key = Some i
        /\ names (if decide (i = 7%nat) then tempTags else memoryTags) j x
  end.

End MacMonViews.

(* ===================================================================== *)
(** * Inputs to run the model on *)
(* ===================================================================== *)

Module Example.

(** A line feed, and the text made of the given lines. *)
Definition LF : string := String "010" "".

Definition capture (lines : list string) : string :=
  foldr (fun l rest => l +:+ LF +:+ rest) "" lines.

(** A JSON string literal. *)
Definition quoted (s : string) : string :=
  String "034" s +:+ String "034" "".

(** Two lines of a macmon capture: a record that gives [all_power] and
    [ecpu_usage] and nothing else, and a line that is not JSON. *)
Definition recordLine : string :=
  "{" +:+ quoted "all_power" +:+ ":1.5," +:+ quoted "ecpu_usage" +:+ ":[1200,35]}".

Definition recordValue : json.Value :=
  json.Object [ ("all_power", json.Number "1.5");
                ("ecpu_usage", json.Array [json.Number "1200"; json.Number "35"]) ].

Definition garbageLine : string := "macmon: sampling".

(** The syntax pass on these two lines; every other text is refused. *)
Definition parseJSON (line : string) : option json.Value :=
  if String.eqb line recordLine then Some recordValue else None.

(** Keys compared to tags: the examples spell their keys as the tags. *)
Definition EqualFold (tag key : string) : bool := String.eqb tag key.

(** Decoding into a [float64], an [int64] and a [[]float64] for the values
    that occur in the examples: numbers in plain decimal notation, arrays
    of them, and [null]. *)
Definition decodeFloat64 (v : json.Value) (cur : float) : option float :=
  match v with
  | json.Null => Some cur
  | json.Number literal => strconv.ParseDecimal literal
  | _ => None
  end.

Definition decodeInt64 (v : json.Value) (cur : Z) : option Z :=
  match v with
  | json.Null => Some cur
  | json.Number literal =>
      match strconv.digits 0 O literal with
      | (n, S _, EmptyString) => Some n
      | _ => None
      end
  | _ => None
  end.

Definition decodeFloat64s (v : json.Value) (cur : list float) : option (list float) :=
  match v with
  | json.Null => Some []
  | json.Array elems => mapM (fun e => decodeFloat64 e 0%float) elems
  | _ => None
  end.

Definition errorText (line : string) : string :=
  "invalid character 'm' looking for beginning of value".

(** A vm_stat capture. *)
Definition vmStatOutput : string :=
  capture [ "Mach Virtual Memory Statistics: (page size of 16384 bytes)";
            "Pages free:                                3210.";
            "Pages active:                            401522.";
            "Pageins:                                2522859." ].

End Example.

(* ===================================================================== *)
(** * Notions for the further properties *)
(* ===================================================================== *)

(** What a computation has sent when it is run from [start]. *)
Definition sentBy {A : Type} (c : Go A) : list Metric :=
  match c start with
  | Returned _ w => ch w
  | Panicked _ w => ch w
  end.

(** A sample as the registry expects it: its descriptor is one of
    [described], and it has one label value for each variable label. *)
Definition wellFormed (described : list Desc) (m : Metric) : Prop :=
  desc m ∈ described
  /\ length (labelValues m) = length (variableLabels (desc m)).

Section CycleViews.

Variable ParseFloat : string -> option float.

Import PowermetricsCollector.

(** A line carries one of the units that the blocks of the powermetrics
    [Collect] ask for. *)
Definition hasUnit (line : string) : bool :=
  strings.Contains line "mW" || strings.Contains line "MHz"
  || strings.Contains line "%".

(** The two per-core residency blocks and the two GPU residency blocks:
    descriptor and marker. *)
Definition cpuResidencyBlocks : list (Desc * string) :=
  [ (cpuActiveResidency, "active residency:");
    (cpuIdleResidency, "idle residency:") ].

Definition gpuResidencyBlocks : list (Desc * string) :=
  [ (gpuActiveResidency, "GPU HW active residency:");
    (gpuIdleResidency, "GPU idle residency:") ].

(** The reading a GPU residency line gives: the token after its first
    ["residency:"] token, its ["%"] cut, parsed. *)
Definition gpuResidencyReading (line : string) : option float :=
  head (followers "residency:" (strings.Fields line))
  ≫= (fun t => ParseFloat (strings.TrimSuffix t "%")).

(** What each block that works line by line sends on [line] alone, by
    descriptor; the two power descriptors, which depend on the lines before,
    and [cpuTemperature] have no such block. *)
Definition blockOf (d : Desc) (line : string) : option (Go unit) :=
  if decide (d = cpuFrequency) then Some (frequencyBlock ParseFloat line)
  else if decide (d = cpuActiveResidency)
  then Some (cpuResidencyBlock ParseFloat d "active residency:" line)
  else if decide (d = cpuIdleResidency)
  then Some (cpuResidencyBlock ParseFloat d "idle residency:" line)
  else if decide (d = gpuActiveResidency)
  then Some (gpuResidencyBlock ParseFloat d "GPU HW active residency:" line)
  else if decide (d = gpuIdleResidency)
  then Some (gpuResidencyBlock ParseFloat d "GPU idle residency:" line)
  else None.

End CycleViews.

Section MacMonCycleViews.

Import MacMonCollector.

(** The three [frequency, usage] arrays of a record with their
    descriptors. *)
Definition pairs : list ((MacMonOutput -> list float) * Desc * Desc) :=
  [ (ECPUsage, ecpuFrequency, ecpuUsagePercent);
    (PCPUsage, pcpuFrequency, pcpuUsagePercent);
    (GPUUsage, gpuFrequency, gpuUsagePercent) ].

End MacMonCycleViews.

Module Example2.

(** A line of [n] bytes ["x"]. *)
Definition longLine (n : N) : string := N.iter n (String "x") "".

(** A powermetrics capture with its header lines, and the same without. *)
Definition powermetricsOutput : string :=
  Example.capture [ "Machine model: Mac14,2";
                    "*** Sampled system activity ***";
                    "";
                    "CPU 0 frequency: 1200 MHz";
                    "CPU 0 active residency:  12.5% (600 MHz: 1.2%)";
                    "CPU Power: 1339 mW";
                    "GPU HW active residency:   3.5% (444 MHz: 3.5%)";
                    "GPU Power: 25 mW" ].

Definition powermetricsBare : string :=
  Example.capture [ "CPU 0 frequency: 1200 MHz";
                    "CPU 0 active residency:  12.5% (600 MHz: 1.2%)";
                    "CPU Power: 1339 mW";
                    "GPU HW active residency:   3.5% (444 MHz: 3.5%)";
                    "GPU Power: 25 mW" ].

(** The vm_stat capture of [Example] with two lines more, whose keys the
    collector does not look up. *)
Definition vmStatOutputMore : string :=
  Example.capture [ "Mach Virtual Memory Statistics: (page size of 16384 bytes)";
                    "Pages free:                                3210.";
                    "Pages active:                            401522.";
                    "Pages occupied by compressor:             88112.";
                    "Pageins:                                2522859.";
                    "Compressions:                            500321." ].

(** A macmon line whose ["all_power"] is a string, and the syntax pass
    that knows it besides the lines of [Example]. *)
Definition mistypedLine : string :=
  "{" +:+ Example.quoted "all_power" +:+ ":" +:+ Example.quoted "high" +:+ ","
  +:+ Example.quoted "cpu_power" +:+ ":2}".

Definition parseJSON (line : string) : option json.Value :=
  if String.eqb line mistypedLine
  then Some (json.Object [ ("all_power", json.Str "high");
                           ("cpu_power", json.Number "2") ])
  else Example.parseJSON line.

End Example2.


(* ===================================================================== *)
(** * Properties *)
(* ===================================================================== *)

(** Unfolds the plumbing of [Go] in a goal about a run. *)
Ltac go_run :=
  unfold Does, mbind, Go_bind, mret, Go_ret, MustNewConstMetric, send, Printf,
         after in *;
  simpl.

(** Closes a goal that equates two worlds up to list associativity. *)
Ltac go_done w :=
  destruct w; simpl; rewrite ?app_nil_r, <- ?app_assoc; simpl; done.

Section GoLemmas.

Lemma Does_ret {A} (a : A) : Does (mret a) a [] [].
Proof. intros [c l]. unfold after, mret, Go_ret; simpl. by rewrite !app_nil_r. Qed.

Lemma Does_bind {A B} (c : Go A) (k : A -> Go B) a b ms ls ms' ls' :
  Does c a ms ls -> Does (k a) b ms' ls' ->
  Does (c ≫= k) b (ms ++ ms') (ls ++ ls').
Proof.
  intros Hc Hk w. unfold mbind, Go_bind. rewrite Hc, Hk.
  unfold after; simpl. by rewrite !app_assoc.
Qed.

Lemma Does_metric d vt v lvs :
  length lvs = length (variableLabels d) ->
  Does (m ← MustNewConstMetric d vt v lvs; send m) tt [mkMetric d vt v lvs] [].
Proof.
  intros Hlen [c l]. unfold mbind, Go_bind, MustNewConstMetric, send, after; simpl.
  rewrite decide_True by done. simpl. by rewrite app_nil_r.
Qed.

Lemma Does_Printf msg : Does (Printf msg) tt [] [msg].
Proof. intros [c l]. unfold Printf, after; simpl. by rewrite app_nil_r. Qed.

Lemma Does_start {A} (c : Go A) a ms ls :
  Does c a ms ls -> c start = Returned a (mkWorld ms ls).
Proof. intros H. by rewrite H. Qed.

End GoLemmas.

Section StringLemmas.

Lemma rev_app_not_empty (s acc : string) :
  acc ≠ EmptyString -> String.rev_app s acc ≠ EmptyString.
Proof.
  revert acc. induction s as [|a s IH]; intros acc Hacc; simpl; [done|].
  by apply IH.
Qed.

Lemma rev_not_empty (s : string) : s ≠ EmptyString -> String.rev s ≠ EmptyString.
Proof.
  destruct s as [|a s]; [done|]. intros _. unfold String.rev; simpl.
  by apply rev_app_not_empty.
Qed.

Lemma flush_not_empty (cur t : string) : t ∈ strings.flush cur -> t ≠ EmptyString.
Proof.
  destruct cur as [|a cur]; simpl; [by intros ?%elem_of_nil|].
  intros ->%list_elem_of_singleton. by apply rev_not_empty.
Qed.

Lemma FieldsFrom_not_empty (s : string) :
  forall skip cur t, t ∈ strings.FieldsFrom skip cur s -> t ≠ EmptyString.
Proof.
  induction s as [|a s IH]; intros skip cur t; simpl.
  - apply flush_not_empty.
  - destruct skip as [|k]; [|by apply IH].
    destruct (strings.spaceWidth _ _); [by apply IH|].
    intros [H|H]%elem_of_app; [by eapply flush_not_empty|by eapply IH].
Qed.

(** No field of [strings.Fields] is empty. *)
Lemma Fields_not_empty (s t : string) : t ∈ strings.Fields s -> t ≠ EmptyString.
Proof. apply FieldsFrom_not_empty. Qed.

Lemma followers_elem (marker : string) (parts : list string) (t : string) :
  t ∈ followers marker parts -> t ∈ parts.
Proof.
  induction parts as [|p rest IH]; simpl; [done|].
  destruct (String.eqb p marker), rest as [|n rest'].
  - by intros ?%elem_of_nil.
  - intros [->|Hin]%elem_of_cons.
    + right. by left.
    + right. by apply IH.
  - by intros ?%elem_of_nil.
  - intros Hin. right. by apply IH.
Qed.

Lemma eqb_empty_false (s : string) : s ≠ EmptyString -> String.eqb s "" = false.
Proof. by destruct s. Qed.

End StringLemmas.

Section PowermetricsLemmas.

Variable ParseFloat : string -> option float.

Import PowermetricsCollector.

Lemma powerLoop_Does (d : Desc) (parts : list string) :
  variableLabels d = [] ->
  let r := head (followers "Power:" parts) ≫= ParseFloat in
  Does (powerLoop ParseFloat d parts) (bool_decide (is_Some r))
       (match r with Some v => [mkMetric d GaugeValue v []] | None => [] end) [].
Proof.
  intros Hd. induction parts as [|part rest IH]; simpl.
  - apply Does_ret.
  - destruct (String.eqb part "Power:"), rest as [|powerStr rest']; simpl;
      try exact IH; try apply Does_ret.
    destruct (ParseFloat powerStr) as [power|]; simpl; [|apply Does_ret].
    intros w. go_run. rewrite Hd. go_done w.
Qed.

Lemma powerBlock_Does (d : Desc) (marker : string) (sent : bool) (line : string) :
  variableLabels d = [] ->
  Does (powerBlock ParseFloat d marker sent line)
       (powerFlag ParseFloat marker sent line)
       (powerSamples ParseFloat d marker sent line) [].
Proof.
  intros Hd. unfold powerBlock, powerFlag, powerSamples, powerMatch.
  rewrite <- andb_assoc.
  destruct sent; simpl; [apply Does_ret|].
  destruct (strings.Contains line marker && strings.Contains line "mW"); simpl;
    [|apply Does_ret].
  pose proof (powerLoop_Does d (strings.Fields line) Hd) as H.
  cbv zeta in H. unfold powerReading.
  destruct (head _ ≫= ParseFloat); intros w; go_run; rewrite H; go_done w.
Qed.

Lemma last_cons_default {A} (x : A) (l : list A) :
  last (x :: l) = Some (default x (last l)).
Proof. rewrite last_cons. by destruct (last l). Qed.

Lemma frequencyLoop_spec (parts : list string) :
  forall (c : string) (f : float),
    frequencyLoop ParseFloat parts c f =
    (default c (last (followers "CPU" parts)),
     default f ((fun x => x * 1000000)%float <$>
                last (omap ParseFloat (followers "frequency:" parts)))).
Proof.
  induction parts as [|part rest IH]; intros c f; [done|].
  cbn [frequencyLoop followers]. rewrite IH. clear IH.
  destruct rest as [|next rest']; [by destruct (String.eqb _ _), (String.eqb _ _)|].
  f_equal.
  - destruct (String.eqb part "CPU"); [|done].
    by rewrite last_cons_default.
  - destruct (String.eqb part "frequency:"); [|done].
    cbn [omap list_omap]. destruct (ParseFloat next) as [freq|]; [|done].
    rewrite last_cons_default. by destruct (last _).
Qed.

Lemma coreToken_not_empty (line c : string) :
  coreToken line = Some c -> String.eqb c "" = false.
Proof.
  intros H%last_Some_elem_of%followers_elem%Fields_not_empty.
  by apply eqb_empty_false.
Qed.

Lemma frequencyBlock_Does (line : string) :
  Does (frequencyBlock ParseFloat line) tt (frequencySamples ParseFloat line) [].
Proof.
  unfold frequencyBlock, frequencySamples, frequencyMatch.
  destruct (_ && _ && _); [|apply Does_ret].
  rewrite frequencyLoop_spec. unfold frequencyMHz.
  destruct (coreToken line) as [c|] eqn:Hc; unfold coreToken in Hc; rewrite Hc; simpl.
  - rewrite (coreToken_not_empty line c Hc); simpl.
    destruct (last (omap ParseFloat _)) as [f|]; simpl.
    + destruct (0 <? f * 1000000)%float; [|apply Does_ret].
      by apply Does_metric.
    + apply Does_ret.
  - apply Does_ret.
Qed.

Lemma residencyLoop_spec (parts : list string) :
  forall (c : string) (r : float),
    residencyLoop ParseFloat parts c r =
    (default c (last (followers "CPU" parts)),
     default r (last (omap (fun t => ParseFloat (strings.TrimSuffix t "%"))
                           (followers "residency:" parts)))).
Proof.
  induction parts as [|part rest IH]; intros c r; [done|].
  cbn [residencyLoop followers]. rewrite IH. clear IH.
  destruct rest as [|next rest']; [by destruct (String.eqb _ _), (String.eqb _ _)|].
  f_equal.
  - destruct (String.eqb part "CPU"); [|done].
    by rewrite last_cons_default.
  - destruct (String.eqb part "residency:"); [|done].
    cbn [omap list_omap]. destruct (ParseFloat _) as [x|]; [|done].
    by rewrite last_cons_default.
Qed.

Lemma cpuResidencyBlock_Does (d : Desc) (marker line : string) :
  length (variableLabels d) = 1%nat ->
  Does (cpuResidencyBlock ParseFloat d marker line) tt
       (cpuResidencySamples ParseFloat d marker line) [].
Proof.
  intros Hd. unfold cpuResidencyBlock, cpuResidencySamples.
  destruct (_ && _ && _); [|apply Does_ret].
  rewrite residencyLoop_spec. unfold residencyPercent.
  destruct (coreToken line) as [c|] eqn:Hc; unfold coreToken in Hc; rewrite Hc; simpl.
  - rewrite (coreToken_not_empty line c Hc); simpl.
    destruct (0 <=? _)%float; [|apply Does_ret].
    by apply Does_metric.
  - apply Does_ret.
Qed.

Lemma gpuResidencyLoop_Does (d : Desc) (parts : list string) :
  variableLabels d = [] ->
  Does (gpuResidencyLoop ParseFloat d parts) tt
       (match head (followers "residency:" parts)
              ≫= (fun t => ParseFloat (strings.TrimSuffix t "%")) with
        | Some r => [mkMetric d GaugeValue r []]
        | None => []
        end) [].
Proof.
  intros Hd. induction parts as [|part rest IH]; simpl.
  - apply Does_ret.
  - destruct (String.eqb part "residency:"), rest as [|next rest']; simpl;
      try exact IH; try apply Does_ret.
    destruct (ParseFloat _) as [r|]; simpl; [|apply Does_ret].
    apply Does_metric. by rewrite Hd.
Qed.

Lemma gpuResidencyBlock_Does (d : Desc) (marker line : string) :
  variableLabels d = [] ->
  Does (gpuResidencyBlock ParseFloat d marker line) tt
       (gpuResidencySamples ParseFloat d marker line) [].
Proof.
  intros Hd. unfold gpuResidencyBlock, gpuResidencySamples.
  destruct (_ && _); [|apply Does_ret].
  by apply gpuResidencyLoop_Does.
Qed.

Lemma scanLine_Does (fl : Flags) (line : string) :
  Does (scanLine ParseFloat fl line) (lineFlags ParseFloat fl line)
       (lineSamples ParseFloat fl line) [].
Proof.
  intros w. unfold scanLine, lineSamples, lineFlags.
  unfold mbind, Go_bind.
  rewrite (powerBlock_Does cpuPower) by done.
  rewrite (powerBlock_Does gpuPower) by done.
  rewrite frequencyBlock_Does.
  rewrite (cpuResidencyBlock_Does cpuActiveResidency) by done.
  rewrite (cpuResidencyBlock_Does cpuIdleResidency) by done.
  rewrite (gpuResidencyBlock_Does gpuActiveResidency) by done.
  rewrite (gpuResidencyBlock_Does gpuIdleResidency) by done.
  unfold mret, Go_ret, after. simpl. f_equal. f_equal.
  - by rewrite <- !app_assoc.
  - by rewrite !app_nil_r.
Qed.

Lemma scan_Does (lines : list string) :
  forall fl, exists fl',
    Does (rangeOver (scanLine ParseFloat) fl lines) fl'
         (scanSamples ParseFloat fl lines) [].
Proof.
  induction lines as [|line rest IH]; intros fl; simpl.
  - eexists. apply Does_ret.
  - destruct (IH (lineFlags ParseFloat fl line)) as [fl' H].
    exists fl'. change (@nil string) with (@nil string ++ []).
    eapply Does_bind; [apply scanLine_Does|exact H].
Qed.

(** [Collect] always returns; it sends the samples of the lines it scans
    and logs the failure of the command, if any. *)
Lemma Collect_Does (run : CmdResult) :
  Does (Collect ParseFloat run) tt
       (scanSamples ParseFloat (mkFlags false false) (scanned run))
       (match RunErr run with
        | Some err => ["Failed to run powermetrics: " +:+ err]
        | None => []
        end).
Proof.
  unfold Collect, scanned. destruct (RunErr run) as [err|].
  - apply Does_Printf.
  - destruct (scan_Does (bufio.scanLines (Stdout run)) (mkFlags false false))
      as [fl' H].
    intros w. unfold mbind, Go_bind. rewrite H. unfold mret, Go_ret. go_done w.
Qed.

End PowermetricsLemmas.

Section SamplesOf.

Lemma samplesOf_app (d : Desc) (ms ms' : list Metric) :
  samplesOf d (ms ++ ms') = samplesOf d ms ++ samplesOf d ms'.
Proof. apply filter_app. Qed.

Lemma samplesOf_other (d d' : Desc) (ms : list Metric) :
  d' ≠ d -> Forall (fun m => desc m = d') ms -> samplesOf d ms = [].
Proof.
  intros Hne. induction 1 as [|m ms Hm _ IH]; [done|].
  unfold samplesOf in *. rewrite filter_cons_False; [done|]. by rewrite Hm.
Qed.

Lemma samplesOf_same (d : Desc) (ms : list Metric) :
  Forall (fun m => desc m = d) ms -> samplesOf d ms = ms.
Proof.
  induction 1 as [|m ms Hm _ IH]; [done|].
  unfold samplesOf in *. rewrite filter_cons_True by done. by rewrite IH.
Qed.

End SamplesOf.

Section PowerOnce.

Variable ParseFloat : string -> option float.

Import PowermetricsCollector.

Lemma powerSamples_desc d marker sent line :
  Forall (fun m => desc m = d) (powerSamples ParseFloat d marker sent line).
Proof.
  unfold powerSamples. destruct (_ && _); [|done].
  destruct (powerReading _ _); repeat constructor.
Qed.

Lemma frequencySamples_desc line :
  Forall (fun m => desc m = cpuFrequency) (frequencySamples ParseFloat line).
Proof.
  unfold frequencySamples. destruct (frequencyMatch _); [|done].
  destruct (coreToken _); [|done]. destruct (frequencyMHz _ _); [|done].
  destruct (_ <? _)%float; repeat constructor.
Qed.

Lemma cpuResidencySamples_desc d marker line :
  Forall (fun m => desc m = d) (cpuResidencySamples ParseFloat d marker line).
Proof.
  unfold cpuResidencySamples. destruct (_ && _ && _); [|done].
  destruct (coreToken _); [|done].
  destruct (_ <=? _)%float; repeat constructor.
Qed.

Lemma gpuResidencySamples_desc d marker line :
  Forall (fun m => desc m = d) (gpuResidencySamples ParseFloat d marker line).
Proof.
  unfold gpuResidencySamples. destruct (_ && _); [|done].
  destruct (_ ≫= _); repeat constructor.
Qed.

(** Of the samples of one line, those of a descriptor are the ones its
    own block sent. *)
Lemma lineSamples_cpuPower fl line :
  samplesOf cpuPower (lineSamples ParseFloat fl line) =
  powerSamples ParseFloat cpuPower "CPU Power:" (cpuPowerSent fl) line.
Proof.
  unfold lineSamples. rewrite !samplesOf_app.
  rewrite (samplesOf_same cpuPower) by apply powerSamples_desc.
  rewrite (samplesOf_other cpuPower gpuPower) by (discriminate || apply powerSamples_desc).
  rewrite (samplesOf_other cpuPower cpuFrequency)
    by (discriminate || apply frequencySamples_desc).
  rewrite (samplesOf_other cpuPower cpuActiveResidency)
    by (discriminate || apply cpuResidencySamples_desc).
  rewrite (samplesOf_other cpuPower cpuIdleResidency)
    by (discriminate || apply cpuResidencySamples_desc).
  rewrite (samplesOf_other cpuPower gpuActiveResidency)
    by (discriminate || apply gpuResidencySamples_desc).
  rewrite (samplesOf_other cpuPower gpuIdleResidency)
    by (discriminate || apply gpuResidencySamples_desc).
  by rewrite !app_nil_r.
Qed.

Lemma lineSamples_gpuPower fl line :
  samplesOf gpuPower (lineSamples ParseFloat fl line) =
  powerSamples ParseFloat gpuPower "GPU Power:" (gpuPowerSent fl) line.
Proof.
  unfold lineSamples. rewrite !samplesOf_app.
  rewrite (samplesOf_same gpuPower (powerSamples _ gpuPower _ _ _))
    by apply powerSamples_desc.
  rewrite (samplesOf_other gpuPower cpuPower) by (discriminate || apply powerSamples_desc).
  rewrite (samplesOf_other gpuPower cpuFrequency)
    by (discriminate || apply frequencySamples_desc).
  rewrite (samplesOf_other gpuPower cpuActiveResidency)
    by (discriminate || apply cpuResidencySamples_desc).
  rewrite (samplesOf_other gpuPower cpuIdleResidency)
    by (discriminate || apply cpuResidencySamples_desc).
  rewrite (samplesOf_other gpuPower gpuActiveResidency)
    by (discriminate || apply gpuResidencySamples_desc).
  rewrite (samplesOf_other gpuPower gpuIdleResidency)
    by (discriminate || apply gpuResidencySamples_desc).
  by rewrite !app_nil_r.
Qed.

Lemma lineSamples_cpuFrequency fl line :
  samplesOf cpuFrequency (lineSamples ParseFloat fl line) =
  frequencySamples ParseFloat line.
Proof.
  unfold lineSamples. rewrite !samplesOf_app.
  rewrite (samplesOf_same cpuFrequency (frequencySamples _ _))
    by apply frequencySamples_desc.
  rewrite (samplesOf_other cpuFrequency cpuPower) by (discriminate || apply powerSamples_desc).
  rewrite (samplesOf_other cpuFrequency gpuPower) by (discriminate || apply powerSamples_desc).
  rewrite (samplesOf_other cpuFrequency cpuActiveResidency)
    by (discriminate || apply cpuResidencySamples_desc).
  rewrite (samplesOf_other cpuFrequency cpuIdleResidency)
    by (discriminate || apply cpuResidencySamples_desc).
  rewrite (samplesOf_other cpuFrequency gpuActiveResidency)
    by (discriminate || apply gpuResidencySamples_desc).
  rewrite (samplesOf_other cpuFrequency gpuIdleResidency)
    by (discriminate || apply gpuResidencySamples_desc).
  by rewrite !app_nil_r.
Qed.

(** The power samples of a scan: none once the flag is set, otherwise the
    first reading alone. *)
Lemma scanSamples_cpuPower (lines : list string) :
  forall fl,
    samplesOf cpuPower (scanSamples ParseFloat fl lines) =
    if cpuPowerSent fl then []
    else take 1 ((fun v => mkMetric cpuPower GaugeValue v [])
                   <$> readings ParseFloat "CPU Power:" lines).
Proof.
  induction lines as [|line rest IH]; intros fl; simpl.
  - by destruct (cpuPowerSent fl).
  - rewrite samplesOf_app, lineSamples_cpuPower, IH. clear IH.
    unfold powerSamples, lineFlags, powerFlag, readings; simpl.
    destruct (cpuPowerSent fl); simpl; [done|].
    destruct (powerMatch "CPU Power:" line); simpl; [|done].
    destruct (powerReading ParseFloat line) as [v|]; simpl; [|done].
    rewrite ?bool_decide_true by eauto. done.
Qed.

Lemma scanSamples_gpuPower (lines : list string) :
  forall fl,
    samplesOf gpuPower (scanSamples ParseFloat fl lines) =
    if gpuPowerSent fl then []
    else take 1 ((fun v => mkMetric gpuPower GaugeValue v [])
                   <$> readings ParseFloat "GPU Power:" lines).
Proof.
  induction lines as [|line rest IH]; intros fl; simpl.
  - by destruct (gpuPowerSent fl).
  - rewrite samplesOf_app, lineSamples_gpuPower, IH. clear IH.
    unfold powerSamples, lineFlags, powerFlag, readings; simpl.
    destruct (gpuPowerSent fl); simpl; [done|].
    destruct (powerMatch "GPU Power:" line); simpl; [|done].
    destruct (powerReading ParseFloat line) as [v|]; simpl; [|done].
    rewrite ?bool_decide_true by eauto. done.
Qed.

(** C1, as the code has it. In every collection cycle [Collect] returns
    having sent at most one CPU-power and at most one GPU-power sample.
    The sample of a metric carries the reading of the first line that
    matches the metric's marker and the unit ["mW"] and gives a reading
    (the token after its first ["Power:"] token parses as a float); a
    matching line that gives none leaves the metric open, and once the
    metric is sent the later matching lines are ignored for it. *)
Theorem C1_power_sample_is_first_reading (run : CmdResult) :
  exists w,
    Collect ParseFloat run start = Returned tt w
    /\ samplesOf cpuPower (ch w) =
         take 1 ((fun v => mkMetric cpuPower GaugeValue v [])
                   <$> readings ParseFloat "CPU Power:" (scanned run))
    /\ samplesOf gpuPower (ch w) =
         take 1 ((fun v => mkMetric gpuPower GaugeValue v [])
                   <$> readings ParseFloat "GPU Power:" (scanned run))
    /\ (length (samplesOf cpuPower (ch w)) <= 1)%nat
    /\ (length (samplesOf gpuPower (ch w)) <= 1)%nat.
Proof.
  eexists. split; [apply Does_start, Collect_Does|]. cbn [ch].
  rewrite scanSamples_cpuPower, scanSamples_gpuPower. cbn [cpuPowerSent gpuPowerSent].
  repeat split; try done; rewrite length_take; lia.
Qed.

End PowerOnce.

Section Binary64.

(** The sign of a binary64 scaled by 1,000,000, from the specification of
    the primitive floats ([SpecFloat]): the product is rounded from a
    mantissa of at least 53 bits at an exponent well above the smallest
    one, so it cannot vanish. *)

Lemma shr_1_m (r : shr_record) :
  0 <= shr_m r -> shr_m (shr_1 r) = shr_m r / 2.
Proof.
  destruct r as [m rr s]. simpl. rewrite <- Z.div2_div.
  destruct m as [|[p|p|]|p]; simpl; try reflexivity; lia.
Qed.

Lemma pow2_xO (n : positive) : 2 ^ Z.pos n~0 = 2 ^ Z.pos n * 2 ^ Z.pos n.
Proof. rewrite <- Z.pow_add_r by lia. f_equal. lia. Qed.

Lemma pow2_xI (n : positive) : 2 ^ Z.pos n~1 = 2 * (2 ^ Z.pos n * 2 ^ Z.pos n).
Proof.
  rewrite <- Z.pow_add_r, <- Z.pow_succ_r by lia. f_equal. lia.
Qed.

Lemma iter_shr_m (n : positive) :
  forall r, 0 <= shr_m r ->
            shr_m (SpecFloat.iter_pos shr_1 n r) = shr_m r / 2 ^ Zpos n.
Proof.
  induction n as [n IH|n IH|]; intros r Hr; simpl SpecFloat.iter_pos.
  - assert (0 < 2 ^ Z.pos n) as Hp by (apply Z.pow_pos_nonneg; lia).
    assert (0 <= shr_m (shr_1 r)) as H1.
    { rewrite shr_1_m by assumption. apply Z.div_pos; lia. }
    assert (0 <= shr_m (SpecFloat.iter_pos shr_1 n (shr_1 r))) as H2.
    { rewrite IH by assumption. apply Z.div_pos; lia. }
    rewrite IH, IH, shr_1_m by assumption.
    rewrite !Z.div_div by lia. by rewrite pow2_xI.
  - assert (0 < 2 ^ Z.pos n) as Hp by (apply Z.pow_pos_nonneg; lia).
    assert (0 <= shr_m (SpecFloat.iter_pos shr_1 n r)) as H2.
    { rewrite IH by assumption. apply Z.div_pos; lia. }
    rewrite IH, IH by assumption.
    rewrite !Z.div_div by lia. by rewrite pow2_xO.
  - rewrite shr_1_m by assumption. reflexivity.
Qed.

Lemma pow2_digits (p : positive) : 2 ^ (Zpos (digits2_pos p) - 1) <= Zpos p.
Proof.
  induction p as [p IH|p IH|]; simpl digits2_pos.
  - rewrite Pos2Z.inj_succ. replace (Z.succ (Z.pos (digits2_pos p)) - 1)
      with (Z.succ (Z.pos (digits2_pos p) - 1)) by lia.
    rewrite Z.pow_succ_r by lia. lia.
  - rewrite Pos2Z.inj_succ. replace (Z.succ (Z.pos (digits2_pos p)) - 1)
      with (Z.succ (Z.pos (digits2_pos p) - 1)) by lia.
    rewrite Z.pow_succ_r by lia. lia.
  - simpl. lia.
Qed.

(** A shift by less than the number of digits leaves a positive mantissa. *)
Lemma shr_positive (p : positive) (r s : bool) (e n : Z) :
  (0 < n -> 2 ^ n <= Zpos p) ->
  exists q, shr_m (fst (shr (Build_shr_record (Zpos p) r s) e n)) = Zpos q.
Proof.
  intros Hn. destruct n as [|k|k]; simpl; try (eexists; reflexivity).
  rewrite iter_shr_m by (simpl; lia). simpl shr_m.
  assert (0 < 2 ^ Z.pos k) as Hp by (apply Z.pow_pos_nonneg; lia).
  assert (1 <= Z.pos p / 2 ^ Z.pos k) as H1.
  { apply Z.div_le_lower_bound; [lia|]. specialize (Hn ltac:(lia)). lia. }
  destruct (Z.pos p / 2 ^ Z.pos k) as [|q|q]; try lia. eexists; reflexivity.
Qed.

Lemma shr_exponent (mrs : shr_record) (e n : Z) :
  snd (shr mrs e n) = if 0 <? n then e + n else e.
Proof. destruct n; reflexivity. Qed.

Lemma round_nearest_even_positive (p : positive) (l : location) :
  exists q, round_nearest_even (Zpos p) l = Zpos q.
Proof.
  destruct l as [|[| |]]; simpl; try (eexists; reflexivity).
  destruct p; eexists; reflexivity.
Qed.

(** Rounding a product whose mantissa has at least 53 bits and whose
    exponent is at most 33 below [emin] gives a non-zero number or an
    infinity, with the sign of the product. *)
Lemma binary_round_aux_sign (sx : bool) (M : positive) (E : Z) :
  2 ^ 52 <= Zpos M -> -1107 <= E ->
  (exists m e, binary_round_aux prec emax sx (Zpos M) E loc_Exact = S754_finite sx m e)
  \/ binary_round_aux prec emax sx (Zpos M) E loc_Exact = S754_infinity sx.
Proof.
  intros HM HE. unfold binary_round_aux, shr_fexp.
  set (n1 := fexp prec emax (Zdigits2 (Z.pos M) + E) - E).
  pose proof (pow2_digits M) as HdM.
  assert (0 < n1 -> 2 ^ n1 <= Zpos M) as Hn1.
  { intros Hpos. unfold n1, fexp, emin, prec, emax in *. simpl Zdigits2 in *.
    destruct (Z.max_spec (Z.pos (digits2_pos M) + E - 53) (3 - 1024 - 53)) as [[_ Hm]|[_ Hm]];
      rewrite Hm in *.
    - transitivity (2 ^ 52); [|assumption]. apply Z.pow_le_mono_r; lia.
    - transitivity (2 ^ (Z.pos (digits2_pos M) - 1)); [|assumption].
      apply Z.pow_le_mono_r; lia. }
  destruct (shr_positive M false false E n1 Hn1) as [p' Hp'].
  pose proof (shr_exponent (shr_record_of_loc (Z.pos M) loc_Exact) E n1) as He'.
  simpl shr_record_of_loc in *.
  destruct (shr {| shr_m := Z.pos M; shr_r := false; shr_s := false |} E n1)
    as [mrs' e'] eqn:Hshr1.
  simpl in Hp', He'. rewrite Hp'.
  assert (-1074 <= e') as Hemin.
  { subst e'. unfold n1, fexp, emin, prec, emax in *.
    destruct (0 <? _) eqn:Hlt; [apply Z.ltb_lt in Hlt|apply Z.ltb_ge in Hlt]; lia. }
  destruct (round_nearest_even_positive p' (loc_of_shr_record mrs')) as [q Hq].
  rewrite Hq. simpl shr_record_of_loc.
  set (n2 := fexp prec emax (Zdigits2 (Z.pos q) + e') - e').
  pose proof (pow2_digits q) as Hdq.
  assert (0 < n2 -> 2 ^ n2 <= Zpos q) as Hn2.
  { intros Hpos. unfold n2, fexp, emin, prec, emax in *. simpl Zdigits2 in *.
    transitivity (2 ^ (Z.pos (digits2_pos q) - 1)); [|assumption].
    apply Z.pow_le_mono_r; lia. }
  destruct (shr_positive q false false e' n2 Hn2) as [q' Hq'].
  destruct (shr {| shr_m := Z.pos q; shr_r := false; shr_s := false |} e' n2)
    as [mrs'' e''] eqn:Hshr2.
  simpl in Hq'. rewrite Hq'.
  destruct (e'' <=? emax - prec); [left; eauto|right; reflexivity].
Qed.

Lemma valid_finite_exponent (s : bool) (m : positive) (e : Z) :
  valid_binary (S754_finite s m e) = true -> -1074 <= e.
Proof.
  unfold valid_binary, SpecFloat.valid_binary, bounded, canonical_mantissa, fexp, emin.
  intros [H _]%andb_true_iff. apply Z.eqb_eq in H. unfold prec, emax in H. lia.
Qed.

(** Scaling a binary64 by 1,000,000 keeps it strictly positive or not. *)
Lemma scale_positive (f : float) :
  (0 <? f * 1000000)%float = (0 <? f)%float.
Proof.
  rewrite !FloatAxioms.ltb_spec, FloatAxioms.mul_spec.
  change (Prim2SF 0) with (S754_zero false).
  change (Prim2SF 1000000) with (S754_finite false 8589934592000000 (-33)).
  pose proof (FloatAxioms.Prim2SF_valid f) as Hv.
  destruct (Prim2SF f) as [s|s| |s m e]; try reflexivity.
  - destruct s; reflexivity.
  - apply valid_finite_exponent in Hv.
    unfold SF64mul, SFmul.
    destruct (binary_round_aux_sign (xorb s false) (m * 8589934592000000) (e + -33))
      as [(m' & e' & ->)| ->].
    + rewrite Pos2Z.inj_mul. change (2 ^ 52) with 4503599627370496. nia.
    + lia.
    + destruct s; reflexivity.
    + destruct s; reflexivity.
Qed.

End Binary64.

Section Frequency.

Variable ParseFloat : string -> option float.

Import PowermetricsCollector.

Lemma scanSamples_cpuFrequency (lines : list string) :
  forall fl,
    samplesOf cpuFrequency (scanSamples ParseFloat fl lines) =
    lines ≫= frequencySamples ParseFloat.
Proof.
  induction lines as [|line rest IH]; intros fl; [done|].
  cbn [scanSamples]. by rewrite samplesOf_app, lineSamples_cpuFrequency, IH.
Qed.

Lemma frequencySamples_inv (line : string) (m : Metric) :
  m ∈ frequencySamples ParseFloat line ->
  frequencyMatch line = true
  /\ exists c f,
       coreToken line = Some c /\ frequencyMHz ParseFloat line = Some f
       /\ (0 <? f * 1000000)%float = true /\ m = frequencySample c f.
Proof.
  unfold frequencySamples.
  destruct (frequencyMatch line); [|by intros ?%elem_of_nil].
  destruct (coreToken line) as [c|]; [|by intros ?%elem_of_nil].
  destruct (frequencyMHz ParseFloat line) as [f|]; [|by intros ?%elem_of_nil].
  destruct (0 <? f * 1000000)%float eqn:Hpos; [|by intros ?%elem_of_nil].
  intros ->%list_elem_of_singleton. split; [done|]. by exists c, f.
Qed.

(** C4. Every frequency sample that [Collect] sends comes from a scanned
    line that carries the markers ["frequency:"], ["MHz"] and ["CPU"];
    its value is the float parsed from the token after ["frequency:"]
    multiplied by 1,000,000, and its label is ["cpu"] followed by the
    token right after ["CPU"] (where a marker token occurs more than once,
    the last occurrence that the loop keeps). *)
Theorem C4_frequency_sample_in_hertz (run : CmdResult) (w : World) (m : Metric) :
  Collect ParseFloat run start = Returned tt w ->
  m ∈ samplesOf cpuFrequency (ch w) ->
  exists line c f,
    line ∈ scanned run
    /\ frequencyMatch line = true
    /\ coreToken line = Some c
    /\ frequencyMHz ParseFloat line = Some f
    /\ value m = (f * 1000000)%float
    /\ labelValues m = ["cpu" +:+ c].
Proof.
  rewrite (Does_start _ _ _ _ (Collect_Does ParseFloat run)).
  intros [= <-]. cbn [ch]. rewrite scanSamples_cpuFrequency.
  intros (line & Hm & Hline)%list_elem_of_bind.
  apply frequencySamples_inv in Hm as (Hmatch & c & f & Hc & Hf & _ & ->).
  by exists line, c, f.
Qed.

Lemma frequencyMHz_token (line : string) (f : float) :
  frequencyMHz ParseFloat line = Some f ->
  exists t, t ∈ strings.Fields line /\ ParseFloat t = Some f.
Proof.
  unfold frequencyMHz.
  intros (t & Ht & Hf)%last_Some_elem_of%list_elem_of_omap.
  exists t. split; [by eapply followers_elem|done].
Qed.

(** C10. On a line that carries the per-core frequency markers the
    frequency block returns having sent one sample or none. It sends one
    exactly when some ["CPU"] token has a token after it and the token
    after ["frequency:"] parses to a float that is strictly positive
    (with several such tokens, the last that parses). So a frequency of 0,
    a negative frequency and a token that does not parse give no sample. *)
Theorem C10_frequency_sample_iff_positive (line : string) :
  frequencyMatch line = true ->
  exists w,
    frequencyBlock ParseFloat line start = Returned tt w
    /\ (length (ch w) <= 1)%nat
    /\ (ch w ≠ [] <->
        followers "CPU" (strings.Fields line) ≠ []
        /\ exists f, frequencyMHz ParseFloat line = Some f
                     /\ (0 <? f)%float = true).
Proof.
  intros Hmatch. eexists.
  split; [apply Does_start, frequencyBlock_Does|]. cbn [ch].
  unfold frequencySamples. rewrite Hmatch. unfold coreToken.
  destruct (last (followers "CPU" (strings.Fields line))) as [c|] eqn:Hc.
  - assert (followers "CPU" (strings.Fields line) ≠ []) as Hne.
    { intros Hnil. by rewrite Hnil in Hc. }
    destruct (frequencyMHz ParseFloat line) as [f|] eqn:Hf.
    + rewrite scale_positive.
      destruct (0 <? f)%float eqn:Hpos; simpl.
      * split; [lia|]. split; [|done]. intros _. split; [done|]. by exists f.
      * split; [lia|]. split; [done|]. intros (_ & f' & [= <-] & Hf').
        congruence.
    + simpl. split; [lia|]. split; [done|]. by intros (_ & f' & [=] & _).
  - apply last_None in Hc. simpl. split; [lia|]. split; [done|].
    by intros [? _].
Qed.

End Frequency.

Section Colons.

Lemma countByte_rev_app (c : ascii) (s acc : string) :
  countByte c (String.rev_app s acc) = (countByte c s + countByte c acc)%nat.
Proof.
  revert acc. induction s as [|a s IH]; intros acc; simpl; [done|].
  rewrite IH. simpl. lia.
Qed.

Lemma countByte_rev (c : ascii) (s : string) :
  countByte c (String.rev s) = countByte c s.
Proof. unfold String.rev. rewrite countByte_rev_app. simpl. lia. Qed.

Lemma countByte_dropLeading (c d : ascii) (s : string) :
  d ≠ c -> countByte c (strings.dropLeading d s) = countByte c s.
Proof.
  intros Hne. induction s as [|a s IH]; simpl; [done|].
  destruct (Ascii.eqb a d) eqn:Had; [|done].
  apply Ascii.eqb_eq in Had as ->. rewrite IH.
  by rewrite (proj2 (Ascii.eqb_neq d c)).
Qed.

Lemma countByte_TrimRight (c d : ascii) (s : string) :
  d ≠ c -> countByte c (strings.TrimRight s d) = countByte c s.
Proof.
  intros Hne. unfold strings.TrimRight.
  by rewrite countByte_rev, countByte_dropLeading, countByte_rev.
Qed.

Lemma prefix_headFree (c : ascii) (r : string) :
  countByte c r = O ->
  forall s, String.prefix r s = true -> headFree c (String.length r) s.
Proof.
  induction r as [|b r IH]; intros Hr s Hpre; simpl; [done|].
  destruct s as [|a s]; [done|]. simpl in Hpre, Hr.
  destruct (ascii_dec b a) as [->|]; [|done].
  destruct (Ascii.eqb a c) eqn:Hac; [done|].
  apply Ascii.eqb_neq in Hac. split; [done|]. apply IH; [lia|done].
Qed.

Lemma spaceWidth_headFree (c : ascii) (runes : list string) (s : string) :
  Forall (fun r => countByte c r = O) runes ->
  headFree c (strings.spaceWidth runes s) s.
Proof.
  intros Hrunes. unfold strings.spaceWidth.
  destruct (List.find _ runes) as [r|] eqn:Hfind; [|done].
  apply List.find_some in Hfind as [Hin Hpre].
  apply prefix_headFree; [|done].
  rewrite Forall_forall in Hrunes. apply Hrunes. by apply list_elem_of_In.
Qed.

Lemma countByte_trimLeftFrom (c : ascii) (runes : list string) (s : string) :
  Forall (fun r => countByte c r = O) runes ->
  forall skip, headFree c skip s ->
               countByte c (strings.trimLeftFrom runes skip s) = countByte c s.
Proof.
  intros Hrunes. induction s as [|a s IH]; intros skip Hfree; simpl; [done|].
  destruct skip as [|k].
  - pose proof (spaceWidth_headFree c runes (String a s) Hrunes) as Hw.
    destruct (strings.spaceWidth runes (String a s)) as [|k]; [done|].
    destruct Hw as [Hne Hw]. rewrite (IH k Hw).
    by rewrite (proj2 (Ascii.eqb_neq a c)).
  - destruct Hfree as [Hne Hfree]. rewrite (IH k Hfree).
    by rewrite (proj2 (Ascii.eqb_neq a c)).
Qed.

Lemma spaceRunes_no_colon :
  Forall (fun r => countByte ":" r = O) strings.spaceRunes
  /\ Forall (fun r => countByte ":" r = O) (map String.rev strings.spaceRunes).
Proof. split; apply (bool_decide_unpack _); by vm_compute. Qed.

Lemma countByte_TrimSpace (s : string) :
  countByte ":" (strings.TrimSpace s) = countByte ":" s.
Proof.
  destruct spaceRunes_no_colon as [H1 H2]. unfold strings.TrimSpace.
  rewrite countByte_rev, countByte_trimLeftFrom, countByte_rev by done.
  by apply countByte_trimLeftFrom.
Qed.

Lemma Contains_countByte (c : ascii) (s : string) :
  strings.Contains s (String c "") = false <-> countByte c s = O.
Proof.
  induction s as [|a s IH]; simpl; [done|].
  destruct (ascii_dec c a) as [->|Hne].
  - rewrite Ascii.eqb_refl. destruct s; simpl; split; intros; (done || lia).
  - rewrite (proj2 (Ascii.eqb_neq a c)) by congruence. simpl. exact IH.
Qed.

Lemma cut_countByte (c : ascii) (s k v : string) :
  strings.cut c s = Some (k, v) -> countByte c s = S (countByte c v).
Proof.
  revert k. induction s as [|a s IH]; intros k; simpl; [done|].
  destruct (Ascii.eqb a c); [by intros [= _ ->]|].
  destruct (strings.cut c s) as [[k' v']|]; [|done].
  intros [= _ <-]. by rewrite (IH k').
Qed.

End Colons.

Section VmStat.

Variable ParseFloat : string -> option float.

Import VmStatCollector.

Lemma parseLine_entry (valueMap : gmap string float) (line : string) :
  parseLine ParseFloat valueMap line =
  match entry ParseFloat line with
  | Some (k, x) => <[k := x]> valueMap
  | None => valueMap
  end.
Proof.
  unfold parseLine, entry, strings.SplitN2.
  destruct (strings.cut ":" line) as [[k v]|]; [|done].
  by destruct (ParseFloat _).
Qed.

Lemma cut_app (sep : ascii) (k v : string) :
  strings.Contains k (String sep "") = false ->
  strings.cut sep (k +:+ String sep v) = Some (k, v).
Proof.
  induction k as [|a k IH]; simpl.
  - by rewrite Ascii.eqb_refl.
  - destruct (ascii_dec sep a) as [->|Hne]; simpl; [by destruct k|].
    intros Hk. rewrite (proj2 (Ascii.eqb_neq a sep)) by congruence.
    by rewrite (IH Hk).
Qed.

Lemma cut_None (sep : ascii) (s : string) :
  strings.Contains s (String sep "") = false -> strings.cut sep s = None.
Proof.
  induction s as [|a s IH]; simpl; [done|].
  destruct (ascii_dec sep a) as [->|Hne]; simpl; [by destruct s|].
  intros Hs. rewrite (proj2 (Ascii.eqb_neq a sep)) by congruence.
  by rewrite (IH Hs).
Qed.

Lemma fold_parseLine (lines : list string) :
  forall (valueMap : gmap string float) (key : string),
    fold_left (parseLine ParseFloat) lines valueMap !! key =
    match last (valuesOf ParseFloat key lines) with
    | Some x => Some x
    | None => valueMap !! key
    end.
Proof.
  induction lines as [|line rest IH]; intros valueMap key; [done|].
  cbn [fold_left]. rewrite IH, parseLine_entry. clear IH.
  unfold valuesOf. cbn [omap list_omap].
  destruct (entry ParseFloat line) as [[k x]|]; simpl; [|done].
  destruct (decide (k = key)) as [->|Hne].
  - rewrite last_cons. rewrite lookup_insert_eq. by destruct (last _).
  - rewrite lookup_insert_ne by done. done.
Qed.

(** C2, as the code has it. The line parser cuts a line at its first
    [":"], trims both sides, strips every trailing period from the value
    and parses it as a float; the line adds the entry (trimmed key ->
    value) exactly when the parse succeeds. A line with no [":"], or whose
    value is not numeric, adds nothing; with a [ParseFloat] that refuses
    any text holding a [":"], as Go's does, so does every line that has not
    exactly one [":"]. In the snapshot of a capture a key holds the value of
    the last line that gave it one. *)
Theorem C2_line_parser (out : string) :
  (forall valueMap line,
      parseLine ParseFloat valueMap line =
      match entry ParseFloat line with
      | Some (k, x) => <[k := x]> valueMap
      | None => valueMap
      end)
  /\ (forall k v,
        strings.Contains k ":" = false ->
        entry ParseFloat (k +:+ ":" +:+ v) =
        (x ← ParseFloat (strings.TrimRight (strings.TrimSpace v) ".");
         Some (strings.TrimSpace k, x)))
  /\ (forall line, strings.Contains line ":" = false -> entry ParseFloat line = None)
  /\ (forall key,
        parse ParseFloat out !! key =
        last (valuesOf ParseFloat key (bufio.scanLines out)))
  /\ ((forall s, strings.Contains s ":" = true -> ParseFloat s = None) ->
      forall line, countByte ":" line ≠ 1%nat -> entry ParseFloat line = None).
Proof.
  split; [apply parseLine_entry|]. split; [|split; [|split]].
  - intros k v Hk. unfold entry.
    change (k +:+ ":" +:+ v) with (k +:+ String ":" v).
    by rewrite (cut_app ":" k v Hk).
  - intros line Hline. unfold entry. by rewrite (cut_None ":" line Hline).
  - intros key. unfold parse. rewrite fold_parseLine.
    by destruct (last _).
  - intros Hcolon line Hcount. unfold entry.
    destruct (strings.cut ":" line) as [[k v]|] eqn:Hcut; [|done].
    apply cut_countByte in Hcut. rewrite Hcolon; [done|].
    apply not_false_iff_true. rewrite Contains_countByte.
    rewrite countByte_TrimRight, countByte_TrimSpace by done. lia.
Qed.

End VmStat.

Section VmStatMapping.

Variable ParseFloat : string -> option float.

Import VmStatCollector.

Lemma sendIfPresent_Does (valueMap : gmap string float) key d vt :
  variableLabels d = [] ->
  Does (sendIfPresent valueMap key d vt) tt (ruleSamples valueMap (key, d, vt)) [].
Proof.
  intros Hd. unfold sendIfPresent, ruleSamples.
  destruct (valueMap !! key); [|apply Does_ret].
  apply Does_metric. by rewrite Hd.
Qed.

Lemma sendAll_Does (valueMap : gmap string float) :
  Does (sendAll valueMap) tt (rules ≫= ruleSamples valueMap) [].
Proof.
  unfold sendAll, rules. rewrite !bind_cons.
  change (@nil (string * Desc * ValueType) ≫= ruleSamples valueMap) with (@nil Metric).
  rewrite app_nil_r.
  repeat (apply (Does_bind _ _ tt tt _ [] _ []); [by apply sendIfPresent_Does|]).
  by apply sendIfPresent_Does.
Qed.

(** [Collect] always returns: it sends the page size, then either logs
    the failure of the command or sends what the lookups find in the
    snapshot. *)
Lemma VmStat_Collect_Does (Getpagesize : Z) (run : CmdResult) :
  Does (Collect ParseFloat Getpagesize run) tt
       (pageSizeSample Getpagesize ::
        match RunErr run with
        | Some _ => []
        | None => rules ≫= ruleSamples (parse ParseFloat (Stdout run))
        end)
       (match RunErr run with
        | Some err => ["Failed to run vm_stat: " +:+ err]
        | None => []
        end).
Proof.
  intros w. unfold Collect.
  unfold mbind at 1, Go_bind at 1, MustNewConstMetric.
  rewrite decide_True by done.
  unfold mbind at 1, Go_bind at 1, send.
  destruct (RunErr run) as [err|].
  - rewrite Does_Printf. unfold after, pageSizeSample; simpl. by rewrite app_nil_r.
  - rewrite sendAll_Does. unfold after, pageSizeSample; simpl.
    by rewrite <- app_assoc, app_nil_r.
Qed.

Lemma ruleSamples_desc valueMap key d vt :
  Forall (fun m => desc m = d) (ruleSamples valueMap (key, d, vt)).
Proof. unfold ruleSamples. destruct (valueMap !! key); repeat constructor. Qed.

Lemma samplesOf_rules_other valueMap (d : Desc) (rs : list (string * Desc * ValueType)) :
  d ∉ rs.*1.*2 -> samplesOf d (rs ≫= ruleSamples valueMap) = [].
Proof.
  induction rs as [|[[k0 d0] vt0] rs IH]; [done|].
  rewrite !fmap_cons, not_elem_of_cons. intros [Hne Hnotin].
  rewrite bind_cons, samplesOf_app, IH by done.
  rewrite (samplesOf_other d d0); [done|done|apply ruleSamples_desc].
Qed.

Lemma samplesOf_rules valueMap (rs : list (string * Desc * ValueType)) key d vt :
  NoDup rs.*1.*2 -> (key, d, vt) ∈ rs ->
  samplesOf d (rs ≫= ruleSamples valueMap) = ruleSamples valueMap (key, d, vt).
Proof.
  induction rs as [|[[k0 d0] vt0] rs IH]; [by intros _ ?%elem_of_nil|].
  rewrite !fmap_cons, NoDup_cons. intros [Hnotin Hnodup].
  rewrite elem_of_cons, bind_cons, samplesOf_app. intros [[= <- <- <-]|Hin].
  - rewrite samplesOf_same by apply ruleSamples_desc.
    by rewrite samplesOf_rules_other, app_nil_r.
  - rewrite IH by done.
    rewrite (samplesOf_other d d0); [done| |apply ruleSamples_desc].
    intros ->. apply Hnotin.
    apply list_elem_of_fmap. exists (key, d). split; [done|].
    apply list_elem_of_fmap. by exists (key, d, vt).
Qed.

Lemma rules_NoDup : NoDup rules.*1.*2.
Proof. apply (bool_decide_unpack _). by vm_compute. Qed.

Lemma pageSize_no_rule : pageSize ∉ rules.*1.*2.
Proof. apply (bool_decide_unpack _). by vm_compute. Qed.

Lemma rules_not_pageSize key d vt : (key, d, vt) ∈ rules -> pageSize ≠ d.
Proof.
  intros Hin <-. apply pageSize_no_rule.
  apply list_elem_of_fmap. exists (key, pageSize). split; [done|].
  apply list_elem_of_fmap. by exists (key, pageSize, vt).
Qed.

(** C5. For every lookup (key, descriptor, kind) of the collector and
    every snapshot, the lookups return having sent for that descriptor one
    sample with the snapshot's value when the key is in the snapshot and no
    sample at all when it is not (no zero, no error). So does [Collect] on
    every capture that [vm_stat] produced, with the snapshot parsed from
    the capture, and it logs nothing. *)
Theorem C5_sample_iff_key_present (key : string) (d : Desc) (vt : ValueType) :
  (key, d, vt) ∈ rules ->
  (forall valueMap : gmap string float,
      exists w,
        sendAll valueMap start = Returned tt w
        /\ logged w = []
        /\ samplesOf d (ch w) =
             match valueMap !! key with
             | Some val => [mkMetric d vt val []]
             | None => []
             end)
  /\ (forall (Getpagesize : Z) (out : string),
        exists w,
          Collect ParseFloat Getpagesize (mkCmdResult out None) start = Returned tt w
          /\ logged w = []
          /\ samplesOf d (ch w) =
               match parse ParseFloat out !! key with
               | Some val => [mkMetric d vt val []]
               | None => []
               end).
Proof.
  intros Hin. split.
  - intros valueMap. eexists. split; [apply Does_start, sendAll_Does|].
    split; [done|]. cbn [ch].
    by rewrite (samplesOf_rules _ _ key d vt rules_NoDup Hin).
  - intros Getpagesize out. eexists.
    split; [apply Does_start, VmStat_Collect_Does|].
    split; [done|]. cbn [ch RunErr Stdout].
    change (pageSizeSample Getpagesize :: ?l) with ([pageSizeSample Getpagesize] ++ l).
    rewrite samplesOf_app.
    rewrite (samplesOf_other d pageSize);
      [|by eapply rules_not_pageSize|by repeat constructor].
    by rewrite (samplesOf_rules _ _ key d vt rules_NoDup Hin).
Qed.

(** C7. In every collection cycle of the vm_stat collector, whether the
    [vm_stat] command succeeded or failed, [Collect] returns having sent
    exactly one page-size sample, whose value is the page size the
    operating system reports. *)
Theorem C7_one_page_size_sample (Getpagesize : Z) (run : CmdResult) :
  exists w,
    Collect ParseFloat Getpagesize run start = Returned tt w
    /\ samplesOf pageSize (ch w) =
         [mkMetric pageSize GaugeValue (float64 Getpagesize) []].
Proof.
  eexists. split; [apply Does_start, VmStat_Collect_Does|]. cbn [ch].
  change (pageSizeSample Getpagesize :: ?l) with ([pageSizeSample Getpagesize] ++ l).
  rewrite samplesOf_app, (samplesOf_same pageSize [_]) by (by repeat constructor).
  destruct (RunErr run); [done|].
  by rewrite samplesOf_rules_other by apply pageSize_no_rule.
Qed.

End VmStatMapping.

Section MacMon.

Variable parseJSON : string -> option json.Value.
Variable EqualFold : string -> string -> bool.
Variable decodeFloat64 : json.Value -> float -> option float.
Variable decodeInt64 : json.Value -> Z -> option Z.
Variable decodeFloat64s : json.Value -> list float -> option (list float).
Variable errorText : string -> string.

Import MacMonCollector.

Local Abbreviation Unmarshal :=
  (Unmarshal parseJSON EqualFold decodeFloat64 decodeInt64 decodeFloat64s).
Local Abbreviation scanLine :=
  (scanLine parseJSON EqualFold decodeFloat64 decodeInt64 decodeFloat64s errorText).
Local Abbreviation Collect :=
  (Collect parseJSON EqualFold decodeFloat64 decodeInt64 decodeFloat64s errorText).
Local Abbreviation records :=
  (recordsOf parseJSON EqualFold decodeFloat64 decodeInt64 decodeFloat64s).
Local Abbreviation complaints :=
  (complaintsOf parseJSON EqualFold decodeFloat64 decodeInt64 decodeFloat64s errorText).
Local Abbreviation setField :=
  (setField EqualFold decodeFloat64 decodeInt64 decodeFloat64s).

Lemma gauge_Does (d : Desc) (v : float) :
  variableLabels d = [] -> Does (gauge d v) tt [gaugeSample d v] [].
Proof. intros Hd. apply Does_metric. by rewrite Hd. Qed.

Lemma sendPair_Does (freq usage : Desc) (pair : list float) :
  variableLabels freq = [] -> variableLabels usage = [] ->
  Does (sendPair freq usage pair) tt (pairSamples freq usage pair) [].
Proof.
  intros Hf Hu. unfold sendPair, pairSamples.
  destruct pair as [|x0 [|x1 pair']];
    destruct (decide _) as [Hlen|Hlen]; cbn [length] in Hlen; try lia;
    try apply Does_ret.
  apply (Does_bind _ _ tt tt [_] [] [_] []); by apply gauge_Does.
Qed.

Lemma sendRecord_Does (data : MacMonOutput) :
  Does (sendRecord data) tt (recordSamples data) [].
Proof.
  unfold sendRecord, recordSamples.
  repeat (apply (Does_bind _ _ tt tt [_] [] _ []); [by apply gauge_Does|]).
  repeat (apply (Does_bind _ _ tt tt _ [] _ []); [by apply sendPair_Does|]).
  repeat (apply (Does_bind _ _ tt tt [_] [] _ []); [by apply gauge_Does|]).
  by apply gauge_Does.
Qed.

Lemma MacMon_scanLine_Does (line : string) :
  Does (scanLine tt line) tt (records line) (complaints line).
Proof.
  unfold MacMonCollector.scanLine, recordsOf, complaintsOf.
  destruct (Unmarshal line); [apply sendRecord_Does|apply Does_Printf].
Qed.

Lemma MacMon_scan_Does (lines : list string) :
  Does (rangeOver scanLine tt lines) tt (lines ≫= records) (lines ≫= complaints).
Proof.
  induction lines as [|line rest IH]; [apply Does_ret|].
  cbn [rangeOver]. rewrite !bind_cons.
  eapply (Does_bind _ _ tt); [apply MacMon_scanLine_Does|exact IH].
Qed.

(** [Collect] always returns: it logs the failure of the command, or sends
    the samples of the lines that decode and logs the others. *)
Lemma MacMon_Collect_Does (run : CmdResult) :
  Does (Collect run) tt
       (match RunErr run with
        | Some _ => []
        | None => bufio.scanLines (Stdout run) ≫= records
        end)
       (match RunErr run with
        | Some err => ["Failed to run macmon: " +:+ err]
        | None => bufio.scanLines (Stdout run) ≫= complaints
        end).
Proof.
  unfold MacMonCollector.Collect. destruct (RunErr run); [apply Does_Printf|].
  apply MacMon_scan_Does.
Qed.

(** C8. When a line of the capture fails to decode, the collector logs it
    and goes on: [Collect] returns having sent the samples of the lines
    before it followed by those of the lines after it, so every line after
    it that decodes still gives all its samples. *)
Theorem C8_bad_record_is_skipped (out : string) (pre post : list string) (bad : string) :
  bufio.scanLines out = pre ++ bad :: post ->
  Unmarshal bad = None ->
  exists w,
    Collect (mkCmdResult out None) start = Returned tt w
    /\ ch w = (pre ≫= records) ++ (post ≫= records)
    /\ "Failed to parse JSON: " +:+ errorText bad ∈ logged w
    /\ forall line data m,
         line ∈ post -> Unmarshal line = Some data ->
         m ∈ recordSamples data -> m ∈ ch w.
Proof.
  intros Hlines Hbad.
  assert (records bad = []) as Hrec by (unfold recordsOf; by rewrite Hbad).
  assert (complaints bad = ["Failed to parse JSON: " +:+ errorText bad]) as Hlog
    by (unfold complaintsOf; by rewrite Hbad).
  eexists.
  split; [apply Does_start, MacMon_Collect_Does|]. cbn [ch logged RunErr Stdout].
  rewrite Hlines, !bind_app, !bind_cons, Hrec, Hlog.
  split; [done|]. split.
  - apply elem_of_app. right. apply elem_of_cons. by left.
  - intros line data m Hline Hdata Hm. apply elem_of_app. right. simpl.
    apply list_elem_of_bind. exists line. split; [|done].
    unfold recordsOf. by rewrite Hdata.
Qed.

Lemma foldl_None {T M : Type} (f : T -> M -> option T) (members : list M) :
  foldl (fun acc mem => t ← acc; f t mem) None members = None.
Proof. by induction members. Qed.

(** What every member leaves alone, decoding leaves alone. *)
Lemma decodeStruct_preserves {T A : Type}
    (setF : T -> string * json.Value -> option T) (proj : T -> A)
    (v : json.Value) (cur res : T) :
  decodeStruct setF v cur = Some res ->
  (forall t mem t', mem ∈ membersOf v -> setF t mem = Some t' -> proj t' = proj t) ->
  proj res = proj cur.
Proof.
  destruct v as [| | | | |members]; simpl; try done; [by intros [= ->]|].
  revert cur. induction members as [|mem rest IH]; intros cur; simpl.
  - by intros [= ->].
  - destruct (setF cur mem) as [t'|] eqn:Hset; [|by rewrite foldl_None].
    intros Hfold Hstep. rewrite (IH t' Hfold).
    + apply (Hstep cur mem t'); [by left|done].
    + intros t m t'' Hm. apply Hstep. by right.
Qed.

(** A member that does not select a field of ["temp"] leaves it alone. *)
Lemma setTempField_other (j : nat) (t t' : TempT) (key : string) (x : json.Value) :
  fieldIndex EqualFold tempTags key ≠ Some j ->
  setTempField EqualFold decodeFloat64 t (key, x) = Some t' ->
  match j with
  | 0 => CPUTempAvg t' = CPUTempAvg t
  | 1 => GPUTempAvg t' = GPUTempAvg t
  | _ => True
  end%nat.
Proof.
  unfold setTempField.
  destruct (fieldIndex EqualFold tempTags key) as [[|[|n]]|]; intros Hne Hset;
    destruct j as [|[|j]]; simplify_option_eq; done.
Qed.

Lemma setMemoryField_other (j : nat) (m m' : MemoryT) (key : string) (x : json.Value) :
  fieldIndex EqualFold memoryTags key ≠ Some j ->
  setMemoryField EqualFold decodeInt64 m (key, x) = Some m' ->
  match j with
  | 0 => RAMTotal m' = RAMTotal m
  | 1 => RAMUsage m' = RAMUsage m
  | 2 => SwapTotal m' = SwapTotal m
  | 3 => SwapUsage m' = SwapUsage m
  | _ => True
  end%nat.
Proof.
  unfold setMemoryField.
  destruct (fieldIndex EqualFold memoryTags key) as [[|[|[|[|n]]]]|]; intros Hne Hset;
    destruct j as [|[|[|[|j]]]]; simplify_option_eq; done.
Qed.

(** A member of the record's object leaves alone every scalar that it does
    not name. *)
Lemma setField_other (s : Scalar) (d d' : MacMonOutput) (key : string) (x : json.Value) :
  match scalarPath s with
  | (i, None) => fieldIndex EqualFold tags key ≠ Some i
  | (i, Some j) =>
      fieldIndex EqualFold tags key = Some i ->
      ~ names EqualFold (if decide (i = 7%nat) then tempTags else memoryTags) j x
  end ->
  setField d (key, x) = Some d' ->
  scalarValue s d' = scalarValue s d.
Proof.
  intros Hs Hset. unfold MacMonCollector.setField in Hset. destruct d.
  destruct (fieldIndex EqualFold tags key) as [n|] eqn:Hkey; [|by simplify_eq].
  destruct n as [|[|[|[|[|[|[|[|[|[|[|[|n]]]]]]]]]]]];
    destruct s; simpl in Hs; simplify_option_eq; try done.
  all: try apply (f_equal float64).
  all: match goal with
       | Hdec : decodeStruct _ _ _ = Some _ |- ?proj _ = _ =>
           eapply (decodeStruct_preserves _ proj); [exact Hdec|]
       end.
  all: intros t [k' x'] t' Hin Hset'.
  - apply (setTempField_other 0 t t' k' x'); [|done].
    intros Hk'. apply Hs; [done|]. by exists k', x'.
  - apply (setTempField_other 1 t t' k' x'); [|done].
    intros Hk'. apply Hs; [done|]. by exists k', x'.
  - apply (setMemoryField_other 0 t t' k' x'); [|done].
    intros Hk'. apply Hs; [done|]. by exists k', x'.
  - apply (setMemoryField_other 1 t t' k' x'); [|done].
    intros Hk'. apply Hs; [done|]. by exists k', x'.
  - apply (setMemoryField_other 2 t t' k' x'); [|done].
    intros Hk'. apply Hs; [done|]. by exists k', x'.
  - apply (setMemoryField_other 3 t t' k' x'); [|done].
    intros Hk'. apply Hs; [done|]. by exists k', x'.
Qed.

(** A scalar that the line does not name keeps the zero it starts with. *)
Lemma unnamed_scalar_zero (line : string) (v : json.Value) (data : MacMonOutput)
    (s : Scalar) :
  parseJSON line = Some v ->
  Unmarshal line = Some data ->
  ~ mentions EqualFold v s ->
  scalarValue s data = 0%float.
Proof.
  intros Hv Hdata Hs. unfold MacMonCollector.Unmarshal in Hdata.
  rewrite Hv in Hdata. simpl in Hdata.
  transitivity (scalarValue s zeroValue); [|by destruct s].
  eapply (decodeStruct_preserves _ (scalarValue s)); [exact Hdata|].
  intros t [key x] t' Hin Hset. apply (setField_other s t t' key x); [|done].
  unfold mentions in Hs. destruct (scalarPath s) as [i [j|]].
  - intros Hkey Hnames. apply Hs. by exists key, x.
  - intros Hkey. apply Hs. by exists key, x.
Qed.

Lemma scalarSample_sent (s : Scalar) (data : MacMonOutput) :
  gaugeSample (scalarDesc s) (scalarValue s data) ∈ recordSamples data.
Proof.
  unfold recordSamples.
  destruct s; cbn [scalarDesc scalarValue];
    first [ apply elem_of_app; left; by repeat constructor
          | do 4 (apply elem_of_app; right); by repeat constructor ].
Qed.

(** C9. A line that decodes makes the collector send, with no condition,
    the seven power samples, the two temperature samples and the four
    memory samples of the record, and a scalar that the line does not name
    is sent with the value 0 that the decoder leaves in a fresh record.
    Only the frequency and usage samples are guarded: the pair of an array
    is sent exactly when the array has at least two elements. *)
Theorem C9_scalars_sent_unconditionally
    (line : string) (v : json.Value) (data : MacMonOutput) :
  parseJSON line = Some v ->
  Unmarshal line = Some data ->
  scanLine tt line start = Returned tt (mkWorld (recordSamples data) [])
  /\ (forall s : Scalar,
        gaugeSample (scalarDesc s) (scalarValue s data) ∈ recordSamples data
        /\ (~ mentions EqualFold v s ->
            gaugeSample (scalarDesc s) 0 ∈ recordSamples data))
  /\ (forall d, d ∈ [ecpuFrequency; ecpuUsagePercent] ->
        samplesOf d (recordSamples data) ≠ [] <-> (2 <= length (ECPUsage data))%nat)
  /\ (forall d, d ∈ [pcpuFrequency; pcpuUsagePercent] ->
        samplesOf d (recordSamples data) ≠ [] <-> (2 <= length (PCPUsage data))%nat)
  /\ (forall d, d ∈ [gpuFrequency; gpuUsagePercent] ->
        samplesOf d (recordSamples data) ≠ [] <-> (2 <= length (GPUUsage data))%nat).
Proof.
  intros Hv Hdata. split; [|split].
  - pose proof (MacMon_scanLine_Does line) as H. apply Does_start in H.
    unfold recordsOf, complaintsOf in H. by rewrite Hdata in H.
  - intros s. split; [apply scalarSample_sent|].
    intros Hs. rewrite <- (unnamed_scalar_zero line v data s Hv Hdata Hs).
    apply scalarSample_sent.
  - unfold recordSamples.
    destruct (ECPUsage data) as [|e0 [|e1 ?]], (PCPUsage data) as [|p0 [|p1 ?]],
             (GPUUsage data) as [|g0 [|g1 ?]];
      (split; [|split]); intros d Hd;
      repeat (apply elem_of_cons in Hd as [->|Hd]); try (by apply elem_of_nil in Hd);
      vm_compute; split; intros; (lia || done).
Qed.

End MacMon.

Section Scrape.

Variable ParseFloat : string -> option float.
Variable parseJSON : string -> option json.Value.
Variable EqualFold : string -> string -> bool.
Variable decodeFloat64 : json.Value -> float -> option float.
Variable decodeInt64 : json.Value -> Z -> option Z.
Variable decodeFloat64s : json.Value -> list float -> option (list float).
Variable errorText : string -> string.

(** C6. Let the command of one source fail (a run that ends with an error,
    whatever it printed). The source's collector logs the failure and
    returns without sending one parsed sample, and nothing panics. In a
    scrape the other source sends exactly what it sends when it runs
    alone: after a failed powermetrics run the scrape holds the samples of
    vm_stat, after a failed vm_stat run it holds those of powermetrics
    followed by the page size. *)
Theorem C6_failed_source_is_isolated
    (Getpagesize : Z) (out err : string) (other : CmdResult) :
  let failed := mkCmdResult out (Some err) in
  PowermetricsCollector.Collect ParseFloat failed start
  = Returned tt (mkWorld [] ["Failed to run powermetrics: " +:+ err])
  /\ VmStatCollector.Collect ParseFloat Getpagesize failed start
     = Returned tt (mkWorld [pageSizeSample Getpagesize]
                            ["Failed to run vm_stat: " +:+ err])
  /\ MacMonCollector.Collect parseJSON EqualFold decodeFloat64 decodeInt64
       decodeFloat64s errorText failed start
     = Returned tt (mkWorld [] ["Failed to run macmon: " +:+ err])
  /\ (exists alone,
        VmStatCollector.Collect ParseFloat Getpagesize other start
        = Returned tt alone
        /\ server.scrape ParseFloat Getpagesize failed other start
           = Returned tt (mkWorld (ch alone)
                                  (("Failed to run powermetrics: " +:+ err)
                                   :: logged alone)))
  /\ (exists alone,
        PowermetricsCollector.Collect ParseFloat other start = Returned tt alone
        /\ server.scrape ParseFloat Getpagesize other failed start
           = Returned tt (mkWorld (ch alone ++ [pageSizeSample Getpagesize])
                                  (logged alone ++ ["Failed to run vm_stat: " +:+ err]))).
Proof.
  intros failed.
  pose proof (Collect_Does ParseFloat failed) as Hpm.
  pose proof (VmStat_Collect_Does ParseFloat Getpagesize failed) as Hvm.
  pose proof (MacMon_Collect_Does parseJSON EqualFold decodeFloat64 decodeInt64
                decodeFloat64s errorText failed) as Hmm.
  pose proof (Collect_Does ParseFloat other) as Hpm'.
  pose proof (VmStat_Collect_Does ParseFloat Getpagesize other) as Hvm'.
  cbn [failed RunErr scanned scanSamples] in Hpm, Hvm, Hmm.
  split; [by apply Does_start|]. split; [by apply Does_start|].
  split; [by apply Does_start|]. split.
  - eexists. split; [by apply Does_start|].
    unfold server.scrape, mbind, Go_bind. by rewrite Hpm, Hvm'.
  - eexists. split; [by apply Does_start|].
    unfold server.scrape, mbind, Go_bind. by rewrite Hpm', Hvm.
Qed.

End Scrape.

(** C3, at a line whose residency token does not parse. With
    ["CPU 0 active residency: N/A%"] in the capture, the token ["N/A"] is
    not a float, and the collector sends an active-residency sample for
    core [cpu0] with the value 0 that the variable was declared with. The
    GPU residency block, which sends inside the successful parse, sends
    nothing for the same token. *)
Theorem C3_unparsable_residency_sent_as_zero :
  strconv.ParseDecimal (strings.TrimSuffix "N/A%" "%") = None
  /\ PowermetricsCollector.Collect strconv.ParseDecimal
       (mkCmdResult (Example.capture ["CPU 0 active residency: N/A%"]) None) start
     = Returned tt
         (mkWorld [mkMetric PowermetricsCollector.cpuActiveResidency GaugeValue 0
                            ["cpu0"]] [])
  /\ PowermetricsCollector.Collect strconv.ParseDecimal
       (mkCmdResult (Example.capture ["GPU idle residency: N/A%"]) None) start
     = Returned tt (mkWorld [] []).
Proof. repeat split; by vm_compute. Qed.

Section Decimal.

Lemma is_nat_not_colon (a : ascii) (d : nat) :
  Ascii.is_nat a = Some d -> Ascii.eqb a ":" = false.
Proof. destruct a as [[] [] [] [] [] [] [] []]; by simpl. Qed.

Lemma digits_countByte (s : string) :
  forall acc n, countByte ":" (strconv.digits acc n s).2 = countByte ":" s.
Proof.
  induction s as [|a s IH]; intros acc n; [done|].
  cbn [strconv.digits]. destruct (Ascii.is_nat a) as [d|] eqn:Ha; [|done].
  rewrite IH. cbn [countByte]. by rewrite (is_nat_not_colon a d Ha).
Qed.

Lemma unsigned_no_colon (s : string) (x : float) :
  strconv.unsigned s = Some x -> countByte ":" s = O.
Proof.
  unfold strconv.unsigned.
  pose proof (digits_countByte s 0 O) as Hs.
  destruct (strconv.digits 0 O s) as [[ip ni] rest]. cbn [snd] in Hs.
  rewrite <- Hs. clear Hs.
  destruct rest as [|a frac]; [done|].
  destruct (ascii_dec a ".") as [->|Hne].
  - pose proof (digits_countByte frac ip O) as Hf.
    destruct (strconv.digits ip O frac) as [[m nf] rest']. cbn [snd] in Hf.
    destruct rest'; [|done]. intros _. cbn [countByte]. by rewrite <- Hf.
  - assert (match a with
            | "."%char => strconv.digits ip O frac
            | _ => (ip, O, String a frac)
            end = (ip, O, String a frac)) as ->; [|done].
    destruct a as [[] [] [] [] [] [] [] []]; done.
Qed.

(** The decimal parser refuses every text with a [":"] in it. *)
Lemma ParseDecimal_no_colon (s : string) :
  strings.Contains s ":" = true -> strconv.ParseDecimal s = None.
Proof.
  intros Hs. destruct (strconv.ParseDecimal s) as [x|] eqn:Hx; [|done].
  exfalso. apply not_false_iff_true in Hs. apply Hs, Contains_countByte.
  unfold strconv.ParseDecimal in Hx.
  destruct s as [|a s']; [done|].
  destruct (ascii_dec a "-") as [->|Hminus].
  { apply fmap_Some in Hx as (y & Hy & _). apply unsigned_no_colon in Hy.
    by cbn [countByte]. }
  destruct (ascii_dec a "+") as [->|Hplus].
  { apply unsigned_no_colon in Hx. by cbn [countByte]. }
  apply (unsigned_no_colon (String a s') x).
  rewrite <- Hx. destruct a as [[] [] [] [] [] [] [] []]; done.
Qed.

End Decimal.

(* ===================================================================== *)
(** * The properties at concrete inputs *)
(* ===================================================================== *)

(** C1, as worded, fails: the capture has two lines with the CPU power
    marker and the unit; the first gives no reading (["N/A"]), and the
    sample carries the reading of the second. *)
Lemma C1_first_match_counterexample :
  ~ first_match_gives_value strconv.ParseDecimal.
Proof.
  intros H.
  specialize (H (Example.capture ["CPU Power: N/A mW"; "CPU Power: 7 mW"])
                [] ["CPU Power: 7 mW"] "CPU Power: N/A mW"
                (mkWorld [mkMetric PowermetricsCollector.cpuPower GaugeValue 7 []] [])
                (mkMetric PowermetricsCollector.cpuPower GaugeValue 7 [])).
  assert (powerReading strconv.ParseDecimal "CPU Power: N/A mW" = None) as Hnone
    by by vm_compute.
  rewrite Hnone in H. discriminate H.
  - by vm_compute.
  - constructor.
  - by vm_compute.
  - apply Exists_cons_hd. by vm_compute.
  - by vm_compute.
  - vm_compute. apply list_elem_of_here.
Qed.

(** C1 on a capture with two CPU power lines that both give a reading:
    one sample, with the reading of the first. *)
Lemma C1_power_sample_witness :
  exists w,
    PowermetricsCollector.Collect strconv.ParseDecimal
      (mkCmdResult (Example.capture ["CPU Power: 1339 mW"; "CPU Power: 1400 mW"]) None)
      start = Returned tt w
    /\ samplesOf PowermetricsCollector.cpuPower (ch w)
       = [mkMetric PowermetricsCollector.cpuPower GaugeValue 1339 []]
    /\ samplesOf PowermetricsCollector.gpuPower (ch w) = [].
Proof.
  destruct (C1_power_sample_is_first_reading strconv.ParseDecimal
              (mkCmdResult (Example.capture ["CPU Power: 1339 mW"; "CPU Power: 1400 mW"])
                           None))
    as (w & Hw & Hcpu & Hgpu & _).
  exists w. split; [done|]. rewrite Hcpu, Hgpu. split; by vm_compute.
Defined.

(** C2, as worded, fails: on ["Pages free: 5.2.."] the code strips both
    periods and adds the entry, while stripping one period leaves
    ["5.2."], which is not a number. *)
Lemma C2_one_period_counterexample :
  ~ adds_entry_one_period strconv.ParseDecimal.
Proof.
  intros H. specialize (H ∅ "Pages free: 5.2..").
  apply (f_equal (fun m : gmap string float => m !! "Pages free")) in H.
  vm_compute in H. discriminate H.
Qed.

(** C2 on lines of vm_stat: a line with a key and a value, a line with no
    [":"], and a line with two. *)
Lemma C2_line_parser_witness :
  strings.Contains "Pages free" ":" = false
  /\ entry strconv.ParseDecimal ("Pages free" +:+ ":" +:+ "                3210.")
     = Some ("Pages free", 3210%float)
  /\ entry strconv.ParseDecimal "Mach Virtual Memory Statistics" = None
  /\ entry strconv.ParseDecimal "Uptime: 12:30" = None.
Proof.
  split; [reflexivity|].
  destruct (C2_line_parser strconv.ParseDecimal Example.vmStatOutput)
    as (_ & Hentry & Hnone & _ & Hcolons).
  split; [|split].
  - rewrite Hentry by reflexivity. by vm_compute.
  - apply Hnone. reflexivity.
  - apply Hcolons; [apply ParseDecimal_no_colon|]. by vm_compute.
Defined.

(** C4 on the line of the specification: ["2400 MHz"] for ["CPU 3"] gives the value
    2400000000 under the label [cpu3]. *)
Lemma C4_frequency_sample_witness :
  let m := mkMetric PowermetricsCollector.cpuFrequency GaugeValue 2400000000 ["cpu3"] in
  exists line c f,
    line ∈ ["CPU 3 frequency: 2400 MHz"]
    /\ frequencyMatch line = true
    /\ coreToken line = Some c
    /\ frequencyMHz strconv.ParseDecimal line = Some f
    /\ value m = (f * 1000000)%float
    /\ labelValues m = ["cpu" +:+ c].
Proof.
  intros m.
  apply (C4_frequency_sample_in_hertz strconv.ParseDecimal
           (mkCmdResult (Example.capture ["CPU 3 frequency: 2400 MHz"]) None)
           (mkWorld [m] []) m).
  - by vm_compute.
  - vm_compute. apply list_elem_of_here.
Defined.

(** C5 on a capture with ["Pages free"] and no ["Pages purgeable"]. *)
Lemma C5_sample_iff_key_present_witness :
  (exists w,
     VmStatCollector.Collect strconv.ParseDecimal 16384
       (mkCmdResult Example.vmStatOutput None) start = Returned tt w
     /\ logged w = []
     /\ samplesOf VmStatCollector.freePages (ch w)
        = [mkMetric VmStatCollector.freePages GaugeValue 3210 []])
  /\ (exists w,
        VmStatCollector.Collect strconv.ParseDecimal 16384
          (mkCmdResult Example.vmStatOutput None) start = Returned tt w
        /\ logged w = []
        /\ samplesOf VmStatCollector.purgeablePages (ch w) = []).
Proof.
  split.
  - destruct (C5_sample_iff_key_present strconv.ParseDecimal
                "Pages free" VmStatCollector.freePages GaugeValue) as [_ Hcollect].
    + apply list_elem_of_here.
    + destruct (Hcollect 16384 Example.vmStatOutput) as (w & Hw & Hlog & Hs).
      exists w. split; [done|]. split; [done|]. rewrite Hs. by vm_compute.
  - destruct (C5_sample_iff_key_present strconv.ParseDecimal
                "Pages purgeable" VmStatCollector.purgeablePages GaugeValue)
      as [_ Hcollect].
    + do 6 apply list_elem_of_further. apply list_elem_of_here.
    + destruct (Hcollect 16384 Example.vmStatOutput) as (w & Hw & Hlog & Hs).
      exists w. split; [done|]. split; [done|]. rewrite Hs. by vm_compute.
Defined.

(** C10 on the line of C4, and on the same line at 0 MHz. *)
Lemma C10_frequency_sample_iff_positive_witness :
  (exists w,
     PowermetricsCollector.frequencyBlock strconv.ParseDecimal
       "CPU 3 frequency: 2400 MHz" start = Returned tt w
     /\ ch w ≠ [])
  /\ (exists w,
        PowermetricsCollector.frequencyBlock strconv.ParseDecimal
          "CPU 3 frequency: 0 MHz" start = Returned tt w
        /\ ch w = []).
Proof.
  split.
  - destruct (C10_frequency_sample_iff_positive strconv.ParseDecimal
                "CPU 3 frequency: 2400 MHz") as (w & Hw & _ & Hiff).
    + reflexivity.
    + exists w. split; [done|]. apply Hiff. split; [by vm_compute|].
      exists 2400%float. split; by vm_compute.
  - destruct (C10_frequency_sample_iff_positive strconv.ParseDecimal
                "CPU 3 frequency: 0 MHz") as (w & Hw & _ & Hiff).
    + reflexivity.
    + exists w. split; [done|]. destruct (ch w) as [|m ms]; [done|].
      destruct Hiff as [Hiff _].
      destruct (Hiff ltac:(done)) as (_ & f & Hf & Hpos).
      vm_compute in Hf. injection Hf as <-. vm_compute in Hpos. discriminate Hpos.
Defined.

(** C8 on a capture whose first line is not JSON and whose second line is
    a record: the record's fifteen samples are sent and the first line is
    in the log. *)
Lemma C8_bad_record_is_skipped_witness :
  exists w,
    MacMonCollector.Collect Example.parseJSON Example.EqualFold
      Example.decodeFloat64 Example.decodeInt64 Example.decodeFloat64s
      Example.errorText
      (mkCmdResult (Example.capture [Example.garbageLine; Example.recordLine]) None)
      start = Returned tt w
    /\ length (ch w) = 15%nat
    /\ "Failed to parse JSON: " +:+ Example.errorText Example.garbageLine ∈ logged w.
Proof.
  destruct (C8_bad_record_is_skipped Example.parseJSON Example.EqualFold
              Example.decodeFloat64 Example.decodeInt64 Example.decodeFloat64s
              Example.errorText
              (Example.capture [Example.garbageLine; Example.recordLine])
              [] [Example.recordLine] Example.garbageLine)
    as (w & Hw & Hch & Hlog & _).
  - by vm_compute.
  - by vm_compute.
  - exists w. split; [done|]. split; [|done]. rewrite Hch. by vm_compute.
Defined.

(** C9 on a record that gives [all_power] and [ecpu_usage] only: the ANE
    power, which the line does not name, is sent as 0; the efficiency-core
    pair is sent and the performance-core pair is not. *)
Lemma C9_scalars_sent_unconditionally_witness :
  exists data,
    MacMonCollector.Unmarshal Example.parseJSON Example.EqualFold
      Example.decodeFloat64 Example.decodeInt64 Example.decodeFloat64s
      Example.recordLine = Some data
    /\ MacMonCollector.scanLine Example.parseJSON Example.EqualFold
         Example.decodeFloat64 Example.decodeInt64 Example.decodeFloat64s
         Example.errorText tt Example.recordLine start
       = Returned tt (mkWorld (recordSamples data) [])
    /\ gaugeSample MacMonCollector.allPower 1.5 ∈ recordSamples data
    /\ gaugeSample MacMonCollector.anePower 0 ∈ recordSamples data
    /\ samplesOf MacMonCollector.ecpuFrequency (recordSamples data) ≠ []
    /\ ~ samplesOf MacMonCollector.pcpuFrequency (recordSamples data) ≠ [].
Proof.
  set (data := MacMonCollector.mkMacMonOutput
                 1.5 0 0 0 0 0 0 (MacMonCollector.mkTemp 0 0) [1200%float; 35%float] [] []
                 (MacMonCollector.mkMemory 0 0 0 0)).
  destruct (C9_scalars_sent_unconditionally Example.parseJSON Example.EqualFold
              Example.decodeFloat64 Example.decodeInt64 Example.decodeFloat64s
              Example.errorText Example.recordLine Example.recordValue data)
    as (Hrun & Hscalars & He & Hp & _).
  - by vm_compute.
  - by vm_compute.
  - exists data. split; [by vm_compute|]. split; [exact Hrun|]. split; [|split; [|split]].
    + apply (Hscalars SAllPower).
    + apply (Hscalars SANEPower).
      intros (key & x & Hin & Hidx). cbn [membersOf Example.recordValue] in Hin.
      apply elem_of_cons in Hin as [[= -> ->]|Hin]; [by vm_compute in Hidx|].
      apply elem_of_cons in Hin as [[= -> ->]|Hin]; [by vm_compute in Hidx|].
      by apply elem_of_nil in Hin.
    + apply He; [apply list_elem_of_here|]. cbn [MacMonCollector.ECPUsage data length]. lia.
    + intros Hne. apply Hp in Hne; [|apply list_elem_of_here].
      cbn [MacMonCollector.PCPUsage data length] in Hne. lia.
Defined.

(* ===================================================================== *)
(** * Further properties: whole cycles, single blocks, edge cases *)
(* ===================================================================== *)

Section PowermetricsCycle.

Variable ParseFloat : string -> option float.

Import PowermetricsCollector.

Lemma scanSamples_Forall (P : Metric -> Prop) :
  (forall fl line, Forall P (lineSamples ParseFloat fl line)) ->
  forall lines fl, Forall P (scanSamples ParseFloat fl lines).
Proof.
  intros Hline. induction lines as [|line rest IH]; intros fl; simpl; [done|].
  apply Forall_app. split; [apply Hline|apply IH].
Qed.

Lemma lineSamples_described fl line :
  Forall (fun m => wellFormed Describe m /\ desc m ≠ cpuTemperature
                   /\ valueType m = GaugeValue)
         (lineSamples ParseFloat fl line).
Proof.
  unfold lineSamples, powerSamples, frequencySamples, cpuResidencySamples,
    gpuResidencySamples.
  repeat (apply Forall_app; split).
  all: repeat match goal with
              | |- Forall _ (if ?b then _ else _) => destruct b
              | |- Forall _ (match ?o with Some _ => _ | None => _ end) => destruct o
              | |- Forall _ [] => constructor
              end.
  all: apply Forall_singleton; unfold wellFormed, Describe; cbn [desc valueType labelValues].
  all: split; [split; [set_solver|done]|split; [discriminate|done]].
Qed.

(** X1. Every sample of a powermetrics cycle is well formed. [Collect]
    returns, never panics on a label count, and each sample it sent carries
    a descriptor that [Describe] announces, one label value for each
    variable label of the descriptor, and the kind gauge. The temperature
    descriptor is announced and never used. *)
Theorem Powermetrics_samples_described (run : CmdResult) :
  exists w,
    Collect ParseFloat run start = Returned tt w
    /\ Forall (fun m => wellFormed Describe m /\ desc m ≠ cpuTemperature
                        /\ valueType m = GaugeValue) (ch w)
    /\ cpuTemperature ∈ Describe
    /\ samplesOf cpuTemperature (ch w) = [].
Proof.
  eexists. split; [apply Does_start, Collect_Does|]. cbn [ch].
  assert (Forall (fun m => wellFormed Describe m /\ desc m ≠ cpuTemperature
                           /\ valueType m = GaugeValue)
                 (scanSamples ParseFloat (mkFlags false false) (scanned run))) as H
    by apply scanSamples_Forall, lineSamples_described.
  split; [exact H|]. split; [unfold Describe; set_solver|].
  unfold samplesOf. induction H as [|m ms (_ & Hm & _) _ IH]; [done|].
  by rewrite filter_cons_False.
Qed.

End PowermetricsCycle.

Section VmStatCycle.

Variable ParseFloat : string -> option float.

Import VmStatCollector.

Lemma ruleSamples_sublist valueMap (rs : list (string * Desc * ValueType)) :
  desc <$> (rs ≫= ruleSamples valueMap) `sublist_of` rs.*1.*2.
Proof.
  induction rs as [|[[key d] vt] rs IH]; [done|].
  rewrite bind_cons, fmap_app, !fmap_cons. unfold ruleSamples at 1.
  destruct (valueMap !! key); simpl.
  - by apply sublist_skip.
  - by apply sublist_cons.
Qed.

Lemma ruleSamples_unlabelled valueMap (rs : list (string * Desc * ValueType)) :
  Forall (fun m => labelValues m = []) (rs ≫= ruleSamples valueMap).
Proof.
  induction rs as [|[[key d] vt] rs IH]; [done|].
  rewrite bind_cons. apply Forall_app. split; [|done].
  unfold ruleSamples. destruct (valueMap !! key); by repeat constructor.
Qed.

Lemma VmStat_descs_sublist (Getpagesize : Z) (run : CmdResult) :
  desc <$> (pageSizeSample Getpagesize ::
            match RunErr run with
            | Some _ => []
            | None => rules ≫= ruleSamples (parse ParseFloat (Stdout run))
            end)
  `sublist_of` pageSize :: rules.*1.*2.
Proof.
  rewrite fmap_cons. apply sublist_skip.
  destruct (RunErr run); [apply sublist_nil_l|apply ruleSamples_sublist].
Qed.

Lemma VmStat_order_NoDup : NoDup (pageSize :: rules.*1.*2).
Proof. apply (bool_decide_unpack _). by vm_compute. Qed.

Lemma VmStat_order_described :
  Forall (fun d => d ∈ Describe /\ d ≠ uncompressed /\ variableLabels d = [])
         (pageSize :: rules.*1.*2).
Proof.
  unfold rules, Describe. cbn [fmap list_fmap fst snd].
  repeat (apply Forall_cons; split; [split; [set_solver|split; [discriminate|done]]|]).
  constructor.
Qed.

Lemma VmStat_samples_described (Getpagesize : Z) (run : CmdResult) :
  Forall (fun m => wellFormed Describe m /\ labelValues m = []
                   /\ desc m ≠ uncompressed)
         (pageSizeSample Getpagesize ::
          match RunErr run with
          | Some _ => []
          | None => rules ≫= ruleSamples (parse ParseFloat (Stdout run))
          end).
Proof.
  pose proof (VmStat_descs_sublist Getpagesize run) as Hsub.
  assert (Forall (fun m => labelValues m = [])
            (pageSizeSample Getpagesize ::
             match RunErr run with
             | Some _ => []
             | None => rules ≫= ruleSamples (parse ParseFloat (Stdout run))
             end)) as Hlabels.
  { constructor; [done|]. destruct (RunErr run); [done|].
    apply ruleSamples_unlabelled. }
  assert (Forall (fun d => d ∈ Describe /\ d ≠ uncompressed /\ variableLabels d = [])
            (desc <$> (pageSizeSample Getpagesize ::
             match RunErr run with
             | Some _ => []
             | None => rules ≫= ruleSamples (parse ParseFloat (Stdout run))
             end))) as Hdesc.
  { apply Forall_forall. intros d Hd.
    apply (proj1 (Forall_forall _ _) VmStat_order_described).
    by eapply elem_of_sublist. }
  apply Forall_fmap in Hdesc.
  eapply Forall_impl; [exact (proj2 (Forall_and _ _) (conj Hlabels Hdesc))|].
  intros m [Hm (Hin & Hne & Hvars)]. cbn [compose] in *.
  unfold wellFormed. by rewrite Hm, Hvars.
Qed.

(** X2. A vm_stat cycle sends at most one sample for each descriptor.
    [Collect] returns; the descriptors of its samples, in the order sent,
    are a subsequence of the page size followed by the descriptors of the
    lookups in source order, so no descriptor occurs twice and there are
    between one and twenty-two samples. Every sample carries a descriptor
    that [Describe] announces and no label value; the descriptor
    [uncompressed] is announced and never used. *)
Theorem VmStat_one_sample_per_descriptor (Getpagesize : Z) (run : CmdResult) :
  exists w,
    Collect ParseFloat Getpagesize run start = Returned tt w
    /\ desc <$> ch w `sublist_of` pageSize :: rules.*1.*2
    /\ NoDup (desc <$> ch w)
    /\ (1 <= length (ch w) <= 22)%nat
    /\ Forall (fun m => wellFormed Describe m /\ labelValues m = []
                        /\ desc m ≠ uncompressed) (ch w)
    /\ uncompressed ∈ Describe.
Proof.
  eexists. split; [apply Does_start, VmStat_Collect_Does|]. cbn [ch].
  pose proof (VmStat_descs_sublist Getpagesize run) as Hsub.
  split; [exact Hsub|]. split; [|split; [|split]].
  - eapply sublist_NoDup; [apply VmStat_order_NoDup|exact Hsub].
  - apply sublist_length in Hsub. rewrite length_fmap in Hsub.
    split; [cbn [length]; lia|]. etrans; [exact Hsub|]. by vm_compute.
  - apply VmStat_samples_described.
  - unfold Describe. set_solver.
Qed.

Lemma ruleSamples_agree (m1 m2 : gmap string float)
    (rs : list (string * Desc * ValueType)) :
  Forall (fun key => m1 !! key = m2 !! key) rs.*1.*1 ->
  rs ≫= ruleSamples m1 = rs ≫= ruleSamples m2.
Proof.
  induction rs as [|[[key d] vt] rs IH]; [done|].
  rewrite !fmap_cons, Forall_cons. cbn [fst]. intros [Hkey Hrest].
  rewrite !bind_cons, IH by done. unfold ruleSamples. by rewrite Hkey.
Qed.

(** X3. Only the keys that the collector looks up matter. Two captures whose
    snapshots hold the same value, or none, under each of the twenty-one
    keys of the lookups make [Collect] do the same: a line with any other
    key changes nothing. *)
Theorem VmStat_only_looked_up_keys_matter
    (Getpagesize : Z) (out1 out2 : string) (w : World) :
  Forall (fun key => parse ParseFloat out1 !! key = parse ParseFloat out2 !! key)
         rules.*1.*1 ->
  Collect ParseFloat Getpagesize (mkCmdResult out1 None) w
  = Collect ParseFloat Getpagesize (mkCmdResult out2 None) w.
Proof.
  intros Hkeys. rewrite !(VmStat_Collect_Does ParseFloat). cbn [RunErr Stdout].
  by rewrite (ruleSamples_agree _ _ rules Hkeys).
Qed.

Lemma fold_parseLine_none (lines : list string) (valueMap : gmap string float) :
  Forall (fun l => entry ParseFloat l = None) lines ->
  fold_left (parseLine ParseFloat) lines valueMap = valueMap.
Proof.
  revert valueMap. induction lines as [|line rest IH]; intros valueMap; [done|].
  rewrite Forall_cons. intros [Hline Hrest]. cbn [fold_left].
  rewrite parseLine_entry, Hline. by apply IH.
Qed.

Lemma ruleSamples_empty (rs : list (string * Desc * ValueType)) :
  rs ≫= ruleSamples ∅ = [].
Proof.
  induction rs as [|[[key d] vt] rs IH]; [done|].
  rewrite bind_cons, IH. unfold ruleSamples. by rewrite lookup_empty.
Qed.

(** X4. A capture that gives no entry gives the page size alone. When the
    command succeeds and no scanned line gives an entry (an empty capture,
    or headers only), [Collect] returns having sent the page-size sample and
    nothing else, and logs nothing. *)
Theorem VmStat_capture_without_entries (Getpagesize : Z) (out : string) :
  Forall (fun l => entry ParseFloat l = None) (bufio.scanLines out) ->
  Collect ParseFloat Getpagesize (mkCmdResult out None) start
  = Returned tt (mkWorld [pageSizeSample Getpagesize] []).
Proof.
  intros Hlines.
  rewrite (Does_start _ _ _ _ (VmStat_Collect_Does ParseFloat Getpagesize _)).
  cbn [RunErr Stdout]. unfold parse.
  by rewrite (fold_parseLine_none _ _ Hlines), ruleSamples_empty.
Qed.

End VmStatCycle.

Section MacMonCycle.

Variable parseJSON : string -> option json.Value.
Variable EqualFold : string -> string -> bool.
Variable decodeFloat64 : json.Value -> float -> option float.
Variable decodeInt64 : json.Value -> Z -> option Z.
Variable decodeFloat64s : json.Value -> list float -> option (list float).
Variable errorText : string -> string.

Import MacMonCollector.

Local Abbreviation decode :=
  (Unmarshal parseJSON EqualFold decodeFloat64 decodeInt64 decodeFloat64s).
Local Abbreviation cycle :=
  (Collect parseJSON EqualFold decodeFloat64 decodeInt64 decodeFloat64s errorText).
Local Abbreviation sentFor :=
  (recordsOf parseJSON EqualFold decodeFloat64 decodeInt64 decodeFloat64s).
Local Abbreviation loggedFor :=
  (complaintsOf parseJSON EqualFold decodeFloat64 decodeInt64 decodeFloat64s errorText).

Lemma recordSamples_described (data : MacMonOutput) :
  Forall (fun m => wellFormed Describe m /\ valueType m = GaugeValue
                   /\ labelValues m = [])
         (recordSamples data).
Proof.
  unfold recordSamples, pairSamples.
  destruct (ECPUsage data) as [|e0 [|e1 ?]], (PCPUsage data) as [|p0 [|p1 ?]],
           (GPUUsage data) as [|g0 [|g1 ?]]; cbn [app].
  all: repeat (apply Forall_cons; split;
               [unfold wellFormed, Describe; cbn [desc gaugeSample];
                split; [split; [set_solver|done]|done]|]).
  all: constructor.
Qed.

Lemma recordSamples_length (data : MacMonOutput) :
  (13 <= length (recordSamples data) <= 19)%nat.
Proof.
  unfold recordSamples, pairSamples.
  destruct (ECPUsage data) as [|e0 [|e1 ?]], (PCPUsage data) as [|p0 [|p1 ?]],
           (GPUUsage data) as [|g0 [|g1 ?]]; cbn [app length]; lia.
Qed.

(** X5. Every sample of a macmon cycle is well formed: [Collect] returns,
    and each sample it sent carries a descriptor that [Describe] announces,
    no label value, and the kind gauge. *)
Theorem MacMon_samples_described (run : CmdResult) :
  exists w,
    cycle run start = Returned tt w
    /\ Forall (fun m => wellFormed Describe m /\ valueType m = GaugeValue
                        /\ labelValues m = []) (ch w).
Proof.
  eexists. split; [apply Does_start, MacMon_Collect_Does|]. cbn [ch].
  destruct (RunErr run); [done|].
  induction (bufio.scanLines (Stdout run)) as [|line rest IH]; [done|].
  rewrite bind_cons. apply Forall_app. split; [|exact IH].
  unfold recordsOf. destruct (decode line); [apply recordSamples_described|done].
Qed.

(** X6. The lines of a macmon capture are accounted for one by one. When the
    command succeeds, [Collect] returns having logged one complaint for each
    line that does not decode, in the order of the capture, and sent between
    thirteen and nineteen samples for each line that decodes. *)
Theorem MacMon_lines_accounted (out : string) :
  let lines := bufio.scanLines out in
  let decoded := filter (fun l => is_Some (decode l)) lines in
  exists w,
    cycle (mkCmdResult out None) start = Returned tt w
    /\ logged w = (fun l => "Failed to parse JSON: " +:+ errorText l)
                    <$> filter (fun l => decode l = None) lines
    /\ (length (logged w) + length decoded = length lines)%nat
    /\ (13 * length decoded <= length (ch w) <= 19 * length decoded)%nat.
Proof.
  intros lines decoded. eexists.
  split; [apply Does_start, MacMon_Collect_Does|]. cbn [ch logged RunErr Stdout].
  fold lines. subst decoded.
  induction lines as [|line rest (IHlog & IHn & IHlen)]; [cbn; repeat split; lia|].
  rewrite !bind_cons.
  destruct (decode line) as [data|] eqn:Hline.
  - assert (sentFor line = recordSamples data) as ->
      by (unfold recordsOf; by rewrite Hline).
    assert (loggedFor line = []) as -> by (unfold complaintsOf; by rewrite Hline).
    rewrite (filter_cons_True (fun l => is_Some (decode l)))
      by (rewrite Hline; by eexists).
    rewrite (filter_cons_False (fun l => decode l = None)) by (by rewrite Hline).
    pose proof (recordSamples_length data) as Hlen.
    rewrite !length_app. cbn [length app] in *. split; [done|]. lia.
  - assert (sentFor line = []) as -> by (unfold recordsOf; by rewrite Hline).
    assert (loggedFor line = ["Failed to parse JSON: " +:+ errorText line]) as ->
      by (unfold complaintsOf; by rewrite Hline).
    rewrite (filter_cons_False (fun l => is_Some (decode l)))
      by (rewrite Hline; by intros [? ?]).
    rewrite (filter_cons_True (fun l => decode l = None)) by (by rewrite Hline).
    cbn [length app fmap list_fmap] in *. split; [by rewrite IHlog|]. lia.
Qed.

(** X7. In a [frequency, usage] array of a record the first element is the
    frequency and the second the usage. For each of the three arrays, when
    it has two elements or more, the record's sends hold exactly one sample
    of the frequency descriptor, with the first element, and exactly one of
    the usage descriptor, with the second; elements after the second are not
    sent. *)
Theorem MacMon_pair_positions (data : MacMonOutput)
    (proj : MacMonOutput -> list float) (freq usage : Desc)
    (x0 x1 : float) (rest : list float) :
  (proj, freq, usage) ∈ pairs ->
  proj data = x0 :: x1 :: rest ->
  exists w,
    sendRecord data start = Returned tt w
    /\ samplesOf freq (ch w) = [gaugeSample freq x0]
    /\ samplesOf usage (ch w) = [gaugeSample usage x1].
Proof.
  intros Hin Hpair. eexists.
  split; [apply Does_start, sendRecord_Does|]. cbn [ch].
  unfold pairs in Hin.
  repeat (apply elem_of_cons in Hin as [[= -> -> ->]|Hin]);
    [| | |by apply elem_of_nil in Hin].
  all: unfold recordSamples; rewrite Hpair.
  - destruct (PCPUsage data) as [|p0 [|p1 ?]], (GPUUsage data) as [|g0 [|g1 ?]];
      split; by vm_compute.
  - destruct (ECPUsage data) as [|p0 [|p1 ?]], (GPUUsage data) as [|g0 [|g1 ?]];
      split; by vm_compute.
  - destruct (ECPUsage data) as [|p0 [|p1 ?]], (PCPUsage data) as [|g0 [|g1 ?]];
      split; by vm_compute.
Qed.

End MacMonCycle.

Section PowermetricsLines.

Variable ParseFloat : string -> option float.

Import PowermetricsCollector.

Lemma scanSamples_elem (m : Metric) (lines : list string) :
  forall fl,
    m ∈ scanSamples ParseFloat fl lines ->
    exists fl' line, line ∈ lines /\ m ∈ lineSamples ParseFloat fl' line.
Proof.
  induction lines as [|line rest IH]; intros fl; simpl; [by intros ?%elem_of_nil|].
  intros [Hm|Hm]%elem_of_app.
  - exists fl, line. split; [by left|done].
  - destruct (IH _ Hm) as (fl' & line' & Hin & Hm'). exists fl', line'.
    split; [by right|done].
Qed.

Lemma coreToken_field (line c : string) :
  coreToken line = Some c -> c ∈ strings.Fields line /\ c ≠ "".
Proof.
  intros H%last_Some_elem_of%followers_elem. split; [done|].
  by eapply Fields_not_empty.
Qed.

Lemma lineSamples_values fl line :
  Forall (fun m =>
            (desc m = cpuFrequency -> (0 <? value m)%float = true)
            /\ (desc m = cpuActiveResidency \/ desc m = cpuIdleResidency ->
                (0 <=? value m)%float = true)
            /\ (variableLabels (desc m) = ["core"] ->
                exists c, c ∈ strings.Fields line /\ c ≠ ""
                          /\ labelValues m = ["cpu" +:+ c]))
         (lineSamples ParseFloat fl line).
Proof.
  unfold lineSamples, powerSamples, frequencySamples, cpuResidencySamples,
    gpuResidencySamples.
  repeat (apply Forall_app; split).
  all: repeat match goal with
              | |- Forall _ (if ?b then _ else _) => destruct b eqn:?
              | |- Forall _ (match ?o with Some _ => _ | None => _ end) =>
                  destruct o eqn:?
              | |- Forall _ [] => constructor
              end.
  all: apply Forall_singleton; cbn [desc value labelValues frequencySample].
  all: repeat split; try discriminate; try (intros [?|?]; discriminate);
       try done.
  all: intros _; eexists; split; [by eapply coreToken_field|];
       split; [by eapply coreToken_field|done].
Qed.

(** X8. The values and labels of the per-core samples of a cycle. Every
    frequency sample that [Collect] sent has a value above 0, and every
    per-core residency sample a value of 0 or more (so neither is a NaN); the
    one label value of each is ["cpu"] followed by a token of a scanned
    line, which is not empty. *)
Theorem Powermetrics_per_core_samples_in_range
    (run : CmdResult) (w : World) (m : Metric) :
  Collect ParseFloat run start = Returned tt w ->
  m ∈ ch w ->
  (desc m = cpuFrequency -> (0 <? value m)%float = true)
  /\ (desc m = cpuActiveResidency \/ desc m = cpuIdleResidency ->
      (0 <=? value m)%float = true)
  /\ (variableLabels (desc m) = ["core"] ->
      exists line c,
        line ∈ scanned run /\ c ∈ strings.Fields line /\ c ≠ ""
        /\ labelValues m = ["cpu" +:+ c]).
Proof.
  rewrite (Does_start _ _ _ _ (Collect_Does ParseFloat run)).
  intros [= <-]. cbn [ch]. intros (fl & line & Hline & Hm)%scanSamples_elem.
  pose proof (proj1 (Forall_forall _ _) (lineSamples_values fl line) m Hm)
    as (Hfreq & Hres & Hcore).
  split; [done|]. split; [done|].
  intros (c & Hc)%Hcore. by exists line, c.
Qed.

Lemma unit_free_line (fl : Flags) (line : string) :
  hasUnit line = false ->
  lineSamples ParseFloat fl line = [] /\ lineFlags ParseFloat fl line = fl.
Proof.
  unfold hasUnit. intros [[HmW HMHz]%orb_false_elim Hpct]%orb_false_elim.
  unfold lineSamples, lineFlags, powerSamples, powerFlag, powerMatch,
    frequencySamples, frequencyMatch, cpuResidencySamples, gpuResidencySamples.
  rewrite HmW, HMHz, Hpct, !andb_false_r. cbn [andb orb negb app].
  rewrite !orb_false_r. by destruct fl.
Qed.

Lemma scanSamples_filter (lines : list string) :
  forall fl,
    scanSamples ParseFloat fl lines =
    scanSamples ParseFloat fl (filter (fun l => hasUnit l = true) lines).
Proof.
  induction lines as [|line rest IH]; intros fl; [done|].
  destruct (hasUnit line) eqn:Hunit.
  - rewrite filter_cons_True by done. cbn [scanSamples]. by rewrite IH.
  - rewrite filter_cons_False by (by rewrite Hunit). cbn [scanSamples].
    destruct (unit_free_line fl line Hunit) as [-> ->]. apply IH.
Qed.

(** X9. Lines without a unit make no difference to a powermetrics cycle. A
    line that holds none of ["mW"], ["MHz"] and ["%"] sends nothing and
    changes no flag, so two captures whose other lines are the same, in the
    same order, make [Collect] do the same. *)
Theorem Powermetrics_unit_free_lines_ignored (out1 out2 : string) (w : World) :
  filter (fun l => hasUnit l = true) (bufio.scanLines out1)
  = filter (fun l => hasUnit l = true) (bufio.scanLines out2) ->
  Collect ParseFloat (mkCmdResult out1 None) w
  = Collect ParseFloat (mkCmdResult out2 None) w.
Proof.
  intros Hlines. rewrite !(Collect_Does ParseFloat). cbn [scanned RunErr Stdout].
  by rewrite (scanSamples_filter (bufio.scanLines out1)), Hlines,
    <- scanSamples_filter.
Qed.

(** X10. A GPU residency block reads the first ["residency:"] token only. On
    every line the block returns; it sends one sample when the line holds
    the block's marker and ["%"] and the token after the first
    ["residency:"] token, its ["%"] cut, parses, with the parsed value and
    no label. When that token does not parse nothing is sent, whatever comes
    later on the line. *)
Theorem gpu_residency_block_reads_first_token (d : Desc) (marker line : string) :
  (d, marker) ∈ gpuResidencyBlocks ->
  gpuResidencyBlock ParseFloat d marker line start
  = Returned tt
      (mkWorld
         (if strings.Contains line marker && strings.Contains line "%"
          then match gpuResidencyReading ParseFloat line with
               | Some r => [mkMetric d GaugeValue r []]
               | None => []
               end
          else []) []).
Proof.
  intros Hin. apply Does_start.
  apply (gpuResidencyBlock_Does ParseFloat d marker line).
  unfold gpuResidencyBlocks in Hin.
  repeat (apply elem_of_cons in Hin as [[= -> ->]|Hin]); try done.
  by apply elem_of_nil in Hin.
Qed.

(** X11. When a per-core residency block sends. On a line that holds the
    block's marker, ["%"] and ["CPU"], the block returns having sent one
    sample or none. It sends one exactly when some ["CPU"] token has a token
    after it and the residency is 0 or more, where the residency is that of
    the last ["residency:"] token whose next token parses and 0 when there
    is none. The sample carries that residency and the core token; so a line
    on which no residency parses still gives a sample, with the value 0. *)
Theorem cpu_residency_block_sends_iff (d : Desc) (marker line : string) :
  (d, marker) ∈ cpuResidencyBlocks ->
  strings.Contains line marker && strings.Contains line "%"
  && strings.Contains line "CPU" = true ->
  let r := default 0%float (residencyPercent ParseFloat line) in
  exists w,
    cpuResidencyBlock ParseFloat d marker line start = Returned tt w
    /\ (length (ch w) <= 1)%nat
    /\ (ch w ≠ [] <->
        followers "CPU" (strings.Fields line) ≠ [] /\ (0 <=? r)%float = true)
    /\ (forall m, m ∈ ch w ->
          exists c, coreToken line = Some c
                    /\ m = mkMetric d GaugeValue r ["cpu" +:+ c])
    /\ (residencyPercent ParseFloat line = None ->
        forall c, coreToken line = Some c ->
                  ch w = [mkMetric d GaugeValue 0 ["cpu" +:+ c]]).
Proof.
  intros Hin Hmatch r.
  assert (length (variableLabels d) = 1%nat) as Hd.
  { unfold cpuResidencyBlocks in Hin.
    repeat (apply elem_of_cons in Hin as [[= -> ->]|Hin]); try done.
    by apply elem_of_nil in Hin. }
  eexists. split; [apply Does_start, (cpuResidencyBlock_Does ParseFloat d marker line Hd)|].
  cbn [ch]. unfold cpuResidencySamples. rewrite Hmatch. fold r.
  unfold coreToken.
  destruct (last (followers "CPU" (strings.Fields line))) as [c|] eqn:Hc.
  - assert (followers "CPU" (strings.Fields line) ≠ []) as Hne.
    { intros Hnil. by rewrite Hnil in Hc. }
    destruct (0 <=? r)%float eqn:Hr.
    + split; [cbn; lia|]. split; [done|]. split.
      * intros m ->%list_elem_of_singleton. by exists c.
      * intros Hnone c' [= <-]. subst r. by rewrite Hnone.
    + split; [cbn; lia|]. split; [by split; [|intros [_ ?]]|]. split.
      * by intros m ?%elem_of_nil.
      * intros Hnone. subst r. rewrite Hnone in Hr. by vm_compute in Hr.
  - apply last_None in Hc. split; [cbn; lia|].
    split; [by split; [|intros [? _]]|]. split.
    + by intros m ?%elem_of_nil.
    + by intros _ c [=].
Qed.

Lemma sentBy_Does {A} (c : Go A) (a : A) (ms : list Metric) (ls : list string) :
  Does c a ms ls -> sentBy c = ms.
Proof. intros H. unfold sentBy. by rewrite (Does_start _ _ _ _ H). Qed.

Lemma samplesOf_nil_other (d d' : Desc) (ms : list Metric) :
  Forall (fun m => desc m = d') ms -> d' ≠ d -> samplesOf d ms = [].
Proof. intros Hms Hne. by apply (samplesOf_other d d'). Qed.

Lemma lineSamples_per_line (d : Desc) (fl : Flags) (line : string) :
  d ∈ [cpuFrequency; cpuActiveResidency; cpuIdleResidency;
       gpuActiveResidency; gpuIdleResidency] ->
  samplesOf d (lineSamples ParseFloat fl line)
  = from_option sentBy [] (blockOf ParseFloat d line).
Proof.
  intros Hd.
  pose proof (powerSamples_desc ParseFloat cpuPower "CPU Power:" (cpuPowerSent fl) line)
    as H1.
  pose proof (powerSamples_desc ParseFloat gpuPower "GPU Power:" (gpuPowerSent fl) line)
    as H2.
  pose proof (frequencySamples_desc ParseFloat line) as H3.
  pose proof (cpuResidencySamples_desc ParseFloat cpuActiveResidency
                "active residency:" line) as H4.
  pose proof (cpuResidencySamples_desc ParseFloat cpuIdleResidency
                "idle residency:" line) as H5.
  pose proof (gpuResidencySamples_desc ParseFloat gpuActiveResidency
                "GPU HW active residency:" line) as H6.
  pose proof (gpuResidencySamples_desc ParseFloat gpuIdleResidency
                "GPU idle residency:" line) as H7.
  unfold lineSamples. rewrite !samplesOf_app.
  repeat (apply elem_of_cons in Hd as [->|Hd]); [| | | | |by apply elem_of_nil in Hd].
  - rewrite (samplesOf_same _ _ H3).
    rewrite (samplesOf_nil_other _ _ _ H1), (samplesOf_nil_other _ _ _ H2),
      (samplesOf_nil_other _ _ _ H4), (samplesOf_nil_other _ _ _ H5),
      (samplesOf_nil_other _ _ _ H6), (samplesOf_nil_other _ _ _ H7) by discriminate.
    rewrite app_nil_r. cbn.
    symmetry. apply (sentBy_Does _ tt _ []), frequencyBlock_Does.
  - rewrite (samplesOf_same _ _ H4).
    rewrite (samplesOf_nil_other _ _ _ H1), (samplesOf_nil_other _ _ _ H2),
      (samplesOf_nil_other _ _ _ H3), (samplesOf_nil_other _ _ _ H5),
      (samplesOf_nil_other _ _ _ H6), (samplesOf_nil_other _ _ _ H7) by discriminate.
    rewrite app_nil_r. cbn.
    symmetry. by apply (sentBy_Does _ tt _ []), cpuResidencyBlock_Does.
  - rewrite (samplesOf_same _ _ H5).
    rewrite (samplesOf_nil_other _ _ _ H1), (samplesOf_nil_other _ _ _ H2),
      (samplesOf_nil_other _ _ _ H3), (samplesOf_nil_other _ _ _ H4),
      (samplesOf_nil_other _ _ _ H6), (samplesOf_nil_other _ _ _ H7) by discriminate.
    rewrite app_nil_r. cbn.
    symmetry. by apply (sentBy_Does _ tt _ []), cpuResidencyBlock_Does.
  - rewrite (samplesOf_same _ _ H6).
    rewrite (samplesOf_nil_other _ _ _ H1), (samplesOf_nil_other _ _ _ H2),
      (samplesOf_nil_other _ _ _ H3), (samplesOf_nil_other _ _ _ H4),
      (samplesOf_nil_other _ _ _ H5), (samplesOf_nil_other _ _ _ H7) by discriminate.
    rewrite app_nil_r. cbn.
    symmetry. by apply (sentBy_Does _ tt _ []), gpuResidencyBlock_Does.
  - rewrite (samplesOf_same _ _ H7).
    rewrite (samplesOf_nil_other _ _ _ H1), (samplesOf_nil_other _ _ _ H2),
      (samplesOf_nil_other _ _ _ H3), (samplesOf_nil_other _ _ _ H4),
      (samplesOf_nil_other _ _ _ H5), (samplesOf_nil_other _ _ _ H6) by discriminate.
    cbn.
    symmetry. by apply (sentBy_Does _ tt _ []), gpuResidencyBlock_Does.
Qed.

(** X12. The blocks for the frequency and the four residencies work line by
    line. For each of these five descriptors the samples of a cycle are, in
    the order of the capture, what the descriptor's block sends on each
    scanned line taken alone: no line changes what another line gives, and
    nothing keeps two lines from giving a sample each. *)
Theorem Powermetrics_blocks_work_line_by_line (run : CmdResult) (d : Desc) :
  d ∈ [cpuFrequency; cpuActiveResidency; cpuIdleResidency;
       gpuActiveResidency; gpuIdleResidency] ->
  exists w,
    Collect ParseFloat run start = Returned tt w
    /\ samplesOf d (ch w)
       = scanned run ≫= (fun line => from_option sentBy [] (blockOf ParseFloat d line)).
Proof.
  intros Hd. eexists. split; [apply Does_start, Collect_Does|]. cbn [ch].
  generalize (mkFlags false false).
  induction (scanned run) as [|line rest IH]; intros fl; [done|].
  cbn [scanSamples]. rewrite bind_cons, samplesOf_app, IH.
  by rewrite lineSamples_per_line.
Qed.

End PowermetricsLines.

Section ScrapeCycle.

Variable ParseFloat : string -> option float.




End ScrapeCycle.

Section OverlongLine.

Variable ParseFloat : string -> option float.
Variable parseJSON : string -> option json.Value.
Variable EqualFold : string -> string -> bool.
Variable decodeFloat64 : json.Value -> float -> option float.
Variable decodeInt64 : json.Value -> Z -> option Z.
Variable decodeFloat64s : json.Value -> list float -> option (list float).
Variable errorText : string -> string.

Lemma append_cons (x : ascii) (a b : string) :
  String x a +:+ b = String x (a +:+ b).
Proof. reflexivity. Qed.

Lemma append_assoc (a b c : string) : (a +:+ b) +:+ c = a +:+ (b +:+ c).
Proof. induction a as [|x a IH]; [done|]. by rewrite !append_cons, IH. Qed.

Lemma length_rev_app (s acc : string) :
  String.length (String.rev_app s acc) = (String.length s + String.length acc)%nat.
Proof.
  revert acc. induction s as [|a s IH]; intros acc; [done|].
  cbn [String.rev_app String.length]. rewrite IH. cbn [String.length]. lia.
Qed.

Lemma rawLines_line (long : string) :
  forall cur rest,
    countByte "010" long = O ->
    bufio.rawLines cur (long +:+ String "010" rest)
    = String.rev (String.rev_app long cur) :: bufio.rawLines "" rest.
Proof.
  induction long as [|a long IH]; intros cur rest; [done|].
  rewrite append_cons. cbn [countByte bufio.rawLines String.rev_app].
  destruct (Ascii.eqb a "010"); [done|]. intros Hlong. by apply IH.
Qed.

Lemma rawLines_app_line (h : string) :
  forall cur rest,
    bufio.rawLines cur (h +:+ String "010" rest)
    = bufio.rawLines cur (h +:+ String "010" "") ++ bufio.rawLines "" rest.
Proof.
  induction h as [|a h IH]; intros cur rest; [done|].
  rewrite !append_cons. cbn [bufio.rawLines].
  destruct (Ascii.eqb a "010"); [|apply IH].
  by rewrite (IH ""), <- app_comm_cons.
Qed.

Lemma capture_cons (l : string) (pre : list string) :
  Example.capture (l :: pre) = l +:+ String "010" (Example.capture pre).
Proof. reflexivity. Qed.

Lemma rawLines_capture (pre : list string) (rest : string) :
  bufio.rawLines "" (Example.capture pre +:+ rest)
  = bufio.rawLines "" (Example.capture pre) ++ bufio.rawLines "" rest.
Proof.
  induction pre as [|l pre IH]; [done|].
  rewrite capture_cons, append_assoc, append_cons.
  rewrite rawLines_app_line, IH, (rawLines_app_line l "" (Example.capture pre)).
  by rewrite app_assoc.
Qed.

Lemma whileFits_overlong (l1 l2 : list string) (bad : string) :
  bufio.fits bad = false ->
  bufio.whileFits (l1 ++ bad :: l2) = bufio.whileFits l1.
Proof.
  intros Hbad. induction l1 as [|l l1 IH]; cbn; [by rewrite Hbad|].
  destruct (bufio.fits l); [by rewrite IH|done].
Qed.

Lemma scanLines_overlong (pre : list string) (long tail : string) :
  countByte "010" long = O ->
  bufio.fits long = false ->
  bufio.scanLines (Example.capture pre +:+ long +:+ Example.LF +:+ tail)
  = bufio.scanLines (Example.capture pre).
Proof.
  intros Hlong Hfits. unfold bufio.scanLines.
  rewrite rawLines_capture.
  change (long +:+ Example.LF +:+ tail) with (long +:+ String "010" tail).
  rewrite (rawLines_line long "" tail Hlong).
  rewrite whileFits_overlong; [done|].
  unfold bufio.fits in *. unfold String.rev.
  rewrite !length_rev_app. cbn [String.length]. by rewrite !Nat.add_0_r.
Qed.

(** X14. A line too long for the scanner ends the scan, silently. Let a
    capture hold, after some lines, a line of 65536 bytes or more. Each of
    the three collectors then does exactly what it does on the lines before
    it: the long line and every line after it are dropped, and nothing is
    logged about it (no [Collect] looks at the scanner's error). *)
Theorem overlong_line_ends_the_scan
    (Getpagesize : Z) (pre : list string) (long tail : string) (w : World) :
  countByte "010" long = O ->
  bufio.fits long = false ->
  let full := mkCmdResult (Example.capture pre +:+ long +:+ Example.LF +:+ tail) None in
  let kept := mkCmdResult (Example.capture pre) None in
  PowermetricsCollector.Collect ParseFloat full w
  = PowermetricsCollector.Collect ParseFloat kept w
  /\ VmStatCollector.Collect ParseFloat Getpagesize full w
     = VmStatCollector.Collect ParseFloat Getpagesize kept w
  /\ MacMonCollector.Collect parseJSON EqualFold decodeFloat64 decodeInt64
       decodeFloat64s errorText full w
     = MacMonCollector.Collect parseJSON EqualFold decodeFloat64 decodeInt64
         decodeFloat64s errorText kept w.
Proof.
  intros Hlong Hfits full kept.
  unfold PowermetricsCollector.Collect, VmStatCollector.Collect,
    VmStatCollector.parse, MacMonCollector.Collect.
  cbn [full kept RunErr Stdout].
  by rewrite (scanLines_overlong pre long tail Hlong Hfits).
Qed.

End OverlongLine.

Section MacMonTypeError.

Variable parseJSON : string -> option json.Value.
Variable EqualFold : string -> string -> bool.
Variable decodeFloat64 : json.Value -> float -> option float.
Variable decodeInt64 : json.Value -> Z -> option Z.
Variable decodeFloat64s : json.Value -> list float -> option (list float).
Variable errorText : string -> string.

Import MacMonCollector.

Lemma foldl_fails {T M : Type} (f : T -> M -> option T) (members : list M) (mem : M) :
  (forall t, f t mem = None) -> mem ∈ members ->
  forall init, foldl (fun acc m => t ← acc; f t m) init members = None.
Proof.
  intros Hmem. induction members as [|m rest IH]; [by intros ?%elem_of_nil|].
  intros [->|Hin]%elem_of_cons init; cbn [foldl].
  - destruct init as [t|]; cbn; [rewrite Hmem|]; apply foldl_None.
  - by apply IH.
Qed.

(** X15. One member of the wrong type drops the whole record. Let a line be
    a JSON object one of whose members selects one of the seven power fields
    and holds a value that does not decode into a [float64]. Then the line
    does not decode: the collector logs it and sends no sample for it, not
    even for the members that are well typed. *)
Theorem MacMon_type_error_drops_record
    (line : string) (members : list (string * json.Value))
    (key : string) (x : json.Value) (i : nat) :
  parseJSON line = Some (json.Object members) ->
  (key, x) ∈ members ->
  fieldIndex EqualFold tags key = Some i ->
  (i < 7)%nat ->
  (forall cur, decodeFloat64 x cur = None) ->
  Unmarshal parseJSON EqualFold decodeFloat64 decodeInt64 decodeFloat64s line = None
  /\ scanLine parseJSON EqualFold decodeFloat64 decodeInt64 decodeFloat64s errorText
       tt line start
     = Returned tt (mkWorld [] ["Failed to parse JSON: " +:+ errorText line]).
Proof.
  intros Hline Hin Hkey Hi Hbad.
  assert (Unmarshal parseJSON EqualFold decodeFloat64 decodeInt64 decodeFloat64s line
          = None) as Hnone.
  { unfold Unmarshal. rewrite Hline. cbn [mbind option_bind decodeStruct].
    apply (foldl_fails _ members (key, x)); [|done].
    intros d. unfold setField. destruct d. rewrite Hkey.
    destruct i as [|[|[|[|[|[|[|i]]]]]]]; try lia; by rewrite Hbad. }
  split; [done|]. unfold scanLine. rewrite Hnone.
  apply Does_start, Does_Printf.
Qed.

End MacMonTypeError.

(* ===================================================================== *)
(** * The further properties at concrete inputs *)
(* ===================================================================== *)

(** X8 at a concrete input. The frequency sample of ["CPU 3 frequency: 2400
    MHz"]: its value is above 0 and its label is ["cpu"] followed by the
    token ["3"]. *)
Lemma Powermetrics_per_core_samples_in_range_witness :
  let m := mkMetric PowermetricsCollector.cpuFrequency GaugeValue 2400000000 ["cpu3"] in
  (0 <? value m)%float = true
  /\ exists line c,
       line ∈ ["CPU 3 frequency: 2400 MHz"] /\ c ∈ strings.Fields line /\ c ≠ ""
       /\ labelValues m = ["cpu" +:+ c].
Proof.
  intros m.
  destruct (Powermetrics_per_core_samples_in_range strconv.ParseDecimal
              (mkCmdResult (Example.capture ["CPU 3 frequency: 2400 MHz"]) None)
              (mkWorld [m] []) m) as (Hfreq & _ & Hcore).
  - by vm_compute.
  - apply list_elem_of_here.
  - split; [by apply Hfreq|]. by apply Hcore.
Defined.

(** X9 at a concrete input. A capture with a model line, a banner and an
    empty line before its readings gives what the readings alone give. *)
Lemma Powermetrics_unit_free_lines_ignored_witness :
  PowermetricsCollector.Collect strconv.ParseDecimal
    (mkCmdResult Example2.powermetricsOutput None) start
  = PowermetricsCollector.Collect strconv.ParseDecimal
      (mkCmdResult Example2.powermetricsBare None) start.
Proof.
  apply (Powermetrics_unit_free_lines_ignored strconv.ParseDecimal).
  by vm_compute.
Defined.

(** X10 at a concrete input. The GPU block on a line of powermetrics, and on
    a line whose first residency does not parse while a later one does. *)
Lemma gpu_residency_block_reads_first_token_witness :
  PowermetricsCollector.gpuResidencyBlock strconv.ParseDecimal
    PowermetricsCollector.gpuActiveResidency "GPU HW active residency:"
    "GPU HW active residency:   3.5% (444 MHz: 3.5%)" start
  = Returned tt
      (mkWorld [mkMetric PowermetricsCollector.gpuActiveResidency GaugeValue 3.5 []] [])
  /\ PowermetricsCollector.gpuResidencyBlock strconv.ParseDecimal
       PowermetricsCollector.gpuIdleResidency "GPU idle residency:"
       "GPU idle residency: N/A% residency: 5%" start
     = Returned tt (mkWorld [] []).
Proof.
  split.
  - rewrite (gpu_residency_block_reads_first_token strconv.ParseDecimal
               PowermetricsCollector.gpuActiveResidency "GPU HW active residency:")
      by apply list_elem_of_here.
    by vm_compute.
  - rewrite (gpu_residency_block_reads_first_token strconv.ParseDecimal
               PowermetricsCollector.gpuIdleResidency "GPU idle residency:")
      by (apply list_elem_of_further, list_elem_of_here).
    by vm_compute.
Defined.

(** X11 at a concrete input. The per-core block on a line of powermetrics: a
    sample is sent. *)
Lemma cpu_residency_block_sends_iff_witness :
  exists w,
    PowermetricsCollector.cpuResidencyBlock strconv.ParseDecimal
      PowermetricsCollector.cpuActiveResidency "active residency:"
      "CPU 0 active residency:  12.5% (600 MHz: 1.2%)" start = Returned tt w
    /\ ch w ≠ [].
Proof.
  destruct (cpu_residency_block_sends_iff strconv.ParseDecimal
              PowermetricsCollector.cpuActiveResidency "active residency:"
              "CPU 0 active residency:  12.5% (600 MHz: 1.2%)")
    as (w & Hw & _ & Hiff & _).
  - apply list_elem_of_here.
  - reflexivity.
  - exists w. split; [done|]. apply Hiff. split; by vm_compute.
Defined.

(** X12 at a concrete input. The active-residency samples of a capture: the
    one of its per-core line; the GPU line, which also holds ["active
    residency:"], gives none. *)
Lemma Powermetrics_blocks_work_line_by_line_witness :
  exists w,
    PowermetricsCollector.Collect strconv.ParseDecimal
      (mkCmdResult Example2.powermetricsOutput None) start = Returned tt w
    /\ samplesOf PowermetricsCollector.cpuActiveResidency (ch w)
       = [mkMetric PowermetricsCollector.cpuActiveResidency GaugeValue 12.5 ["cpu0"]].
Proof.
  destruct (Powermetrics_blocks_work_line_by_line strconv.ParseDecimal
              (mkCmdResult Example2.powermetricsOutput None)
              PowermetricsCollector.cpuActiveResidency) as (w & Hw & Hs).
  - apply list_elem_of_further, list_elem_of_here.
  - exists w. split; [done|]. rewrite Hs. by vm_compute.
Defined.

(** X3 at a concrete input. Two more lines in a vm_stat capture, with keys
    that no lookup asks for, change nothing. *)
Lemma VmStat_only_looked_up_keys_matter_witness :
  VmStatCollector.Collect strconv.ParseDecimal 16384
    (mkCmdResult Example.vmStatOutput None) start
  = VmStatCollector.Collect strconv.ParseDecimal 16384
      (mkCmdResult Example2.vmStatOutputMore None) start.
Proof.
  apply (VmStat_only_looked_up_keys_matter strconv.ParseDecimal).
  unfold VmStatCollector.rules. cbn [fmap list_fmap fst].
  repeat (apply Forall_cons; split; [by vm_compute|]). constructor.
Defined.

(** X4 at a concrete input. A vm_stat capture that is its header line alone. *)
Lemma VmStat_capture_without_entries_witness :
  VmStatCollector.Collect strconv.ParseDecimal 16384
    (mkCmdResult
       (Example.capture ["Mach Virtual Memory Statistics: (page size of 16384 bytes)"])
       None) start
  = Returned tt (mkWorld [pageSizeSample 16384] []).
Proof.
  apply (VmStat_capture_without_entries strconv.ParseDecimal).
  apply Forall_singleton. by vm_compute.
Defined.

(** X7 at a concrete input. A record whose efficiency-core array is [[1200,
    35, 7]]: 1200 is sent as the frequency and 35 as the usage. *)
Lemma MacMon_pair_positions_witness :
  let data := MacMonCollector.mkMacMonOutput
                1.5 0 0 0 0 0 0 (MacMonCollector.mkTemp 0 0)
                [1200%float; 35%float; 7%float] [] []
                (MacMonCollector.mkMemory 0 0 0 0) in
  exists w,
    MacMonCollector.sendRecord data start = Returned tt w
    /\ samplesOf MacMonCollector.ecpuFrequency (ch w)
       = [gaugeSample MacMonCollector.ecpuFrequency 1200]
    /\ samplesOf MacMonCollector.ecpuUsagePercent (ch w)
       = [gaugeSample MacMonCollector.ecpuUsagePercent 35].
Proof.
  intros data.
  apply (MacMon_pair_positions data MacMonCollector.ECPUsage
           MacMonCollector.ecpuFrequency MacMonCollector.ecpuUsagePercent
           1200 35 [7%float]).
  - apply list_elem_of_here.
  - reflexivity.
Defined.

(** X14 at a concrete input. A capture whose second line has 65536 bytes:
    the power reading before it is sent, the one after it is not. *)
Lemma overlong_line_ends_the_scan_witness :
  PowermetricsCollector.Collect strconv.ParseDecimal
    (mkCmdResult
       (Example.capture ["CPU Power: 1339 mW"] +:+ Example2.longLine 65536
        +:+ Example.LF +:+ Example.capture ["GPU Power: 25 mW"]) None) start
  = Returned tt
      (mkWorld [mkMetric PowermetricsCollector.cpuPower GaugeValue 1339 []] []).
Proof.
  destruct (overlong_line_ends_the_scan strconv.ParseDecimal
              Example.parseJSON Example.EqualFold Example.decodeFloat64
              Example.decodeInt64 Example.decodeFloat64s Example.errorText
              16384 ["CPU Power: 1339 mW"] (Example2.longLine 65536)
              (Example.capture ["GPU Power: 25 mW"]) start) as (Hpm & _).
  - by vm_compute.
  - by vm_compute.
  - rewrite Hpm. by vm_compute.
Defined.

(** X15 at a concrete input. A record whose ["all_power"] is a string: the
    line is logged and its well-typed ["cpu_power"] is not sent. *)
Lemma MacMon_type_error_drops_record_witness :
  MacMonCollector.Unmarshal Example2.parseJSON Example.EqualFold
    Example.decodeFloat64 Example.decodeInt64 Example.decodeFloat64s
    Example2.mistypedLine = None
  /\ MacMonCollector.scanLine Example2.parseJSON Example.EqualFold
       Example.decodeFloat64 Example.decodeInt64 Example.decodeFloat64s
       Example.errorText tt Example2.mistypedLine start
     = Returned tt
         (mkWorld [] ["Failed to parse JSON: " +:+ Example.errorText Example2.mistypedLine]).
Proof.
  apply (MacMon_type_error_drops_record Example2.parseJSON Example.EqualFold
           Example.decodeFloat64 Example.decodeInt64 Example.decodeFloat64s
           Example.errorText Example2.mistypedLine
           [("all_power", json.Str "high"); ("cpu_power", json.Number "2")]
           "all_power" (json.Str "high") 0).
  - by vm_compute.
  - apply list_elem_of_here.
  - by vm_compute.
  - lia.
  - done.
Defined.
